(** * prisma-extension-soft-delete: the parameter rewriting engine

    A shallow embedding of [src/lib/helpers/createParams.ts] and
    [src/lib/createSoftDeleteExtension.ts].

    - [Module JS]: the fragment of JavaScript values the rewrite rules
      manipulate (documents, truthiness, own-property lookup, object spread).
    - [Module Types]: [ModelConfig], [Params], thrown errors.
    - [Module CreateParams]: one definition per function of createParams.ts.
    - [Module Extension]: construction of the extension, the root and nested
      handlers, and the [$allModels] methods, over an explicit store that
      keeps the sharing of the default config object between models. *)

From Stdlib Require Import String Ascii List ZArith Bool Lia DecimalString.
Import ListNotations.
Local Open Scope string_scope.
Local Open Scope list_scope.
Set Warnings "-register-all".

(** ** JavaScript values *)
Module JS.

(** Argument trees are JSON-like documents. [VDate] stands for a [Date]
    instance: an object without own enumerable properties.  Objects are
    association lists in insertion order; a key is looked up at its first
    occurrence and is overwritten in place, as a JS assignment does.  Keys
    are column, relation and model names, so the numeric-key ordering of JS
    objects does not arise. *)
Inductive value : Type :=
| VUndefined
| VNull
| VBool (b : bool)
| VNum (n : Z)
| VStr (s : string)
| VDate (t : Z)
| VObj (props : list (string * value))
| VArr (elems : list value).

Section Assoc.
Context {A : Type}.

(** [o[k]] on own properties. *)
Fixpoint assoc_get (k : string) (l : list (string * A)) : option A :=
  match l with
  | [] => None
  | (k', v) :: rest => if String.eqb k k' then Some v else assoc_get k rest
  end.

(** [o[k] = v]: overwrite in place, or append a new key. *)
Fixpoint assoc_set (l : list (string * A)) (k : string) (v : A)
  : list (string * A) :=
  match l with
  | [] => [(k, v)]
  | (k', v') :: rest =>
      if String.eqb k k' then (k', v) :: rest
      else (k', v') :: assoc_set rest k v
  end.

(** [delete o[k]]. *)
Fixpoint assoc_remove (l : list (string * A)) (k : string)
  : list (string * A) :=
  match l with
  | [] => []
  | (k', v') :: rest =>
      if String.eqb k k' then assoc_remove rest k
      else (k', v') :: assoc_remove rest k
  end.
End Assoc.

(** Truthiness ([!!v]).  Numbers are integers here, so there is no NaN. *)
Definition truthy (v : value) : bool :=
  match v with
  | VUndefined | VNull => false
  | VBool b => b
  | VNum n => negb (Z.eqb n 0)
  | VStr s => negb (String.eqb s "")
  | VDate _ | VObj _ | VArr _ => true
  end.

(** [a || b] on values. *)
Definition or_else (a b : value) : value := if truthy a then a else b.

Definition nullish (v : value) : bool :=
  match v with
  | VUndefined | VNull => true
  | _ => false
  end.

Definition index_key (i : nat) : string :=
  NilZero.string_of_uint (Nat.to_uint i).

Fixpoint indexed_from {A : Type} (i : nat) (l : list A) : list (string * A) :=
  match l with
  | [] => []
  | x :: rest => (index_key i, x) :: indexed_from (S i) rest
  end.

Fixpoint chars (s : string) : list value :=
  match s with
  | EmptyString => []
  | String c rest => VStr (String c EmptyString) :: chars rest
  end.

(** Own enumerable properties, in enumeration order: what [{...v}],
    [Object.keys(v)] and [Object.entries(v)] see. *)
Definition own_props (v : value) : list (string * value) :=
  match v with
  | VObj props => props
  | VArr elems => indexed_from 0 elems
  | VStr s => indexed_from 0 (chars s)
  | _ => []
  end.

Definition keys (v : value) : list string := map fst (own_props v).

(** [v?.[k]]: own property of a non-nullish receiver, [undefined] otherwise.
    Members inherited from a prototype are not modelled: column and relation
    names do not collide with them. *)
Definition get (v : value) (k : string) : value :=
  match assoc_get k (own_props v) with
  | Some x => x
  | None =>
      if String.eqb k "length" then
        match v with
        | VArr elems => VNum (Z.of_nat (List.length elems))
        | VStr s => VNum (Z.of_nat (String.length s))
        | _ => VUndefined
        end
      else VUndefined
  end.

(** [typeof v]. *)
Definition typeof (v : value) : string :=
  match v with
  | VUndefined => "undefined"
  | VBool _ => "boolean"
  | VNum _ => "number"
  | VStr _ => "string"
  | VNull | VDate _ | VObj _ | VArr _ => "object"
  end.

(** [String(v)] for the values interpolated into messages and keys. *)
Definition opt_to_string (s : option string) : string :=
  match s with
  | Some x => x
  | None => "undefined"
  end.

Definition lower_ascii (c : ascii) : ascii :=
  let n := nat_of_ascii c in
  if andb (Nat.leb 65 n) (Nat.leb n 90) then ascii_of_nat (n + 32) else c.

(** [s.toLowerCase()] on ASCII letters. *)
Fixpoint toLowerCase (s : string) : string :=
  match s with
  | EmptyString => EmptyString
  | String c rest => String (lower_ascii c) (toLowerCase rest)
  end.

(** [s.includes(sub)]. *)
Fixpoint includes (s sub : string) : bool :=
  if String.prefix sub s then true
  else match s with
       | EmptyString => false
       | String _ rest => includes rest sub
       end.

(** [l.includes(x)] on string arrays. *)
Definition mem (x : string) (l : list string) : bool :=
  existsb (String.eqb x) l.

End JS.

(** ** Configuration, operation nodes and thrown errors *)
Module Types.
Import JS.

Inductive TrashedOption : Type := all | only | except.

(** [ModelConfig] as it exists at run time.  The declared type requires
    [field] and [createValue]; the constructor of the extension checks them on
    the default config only, so an override object may lack either.  The
    remaining members are optional in the declared type. *)
Record ModelConfig : Type := {
  field : option string;
  createValue : option (bool -> value);
  allowToOneUpdates : option bool;
  allowCompoundUniqueIndexWhere : option bool;
  queryOption : option TrashedOption;
  nestModels : value;
  forceDelete : option bool
}.

(** [scope.relations.to]. *)
Record RelationTo : Type := { name : string; isList : bool }.
Record Relations : Type := { to : RelationTo }.

(** A node of the operation tree.  The [query] callback of the source is the
    external client and is passed to the handlers separately. *)
Inductive Params : Type := mkParams {
  model : option string;
  operation : string;
  args : value;
  scope : option Scope
}
with Scope : Type := mkScope {
  parentParams : Params;
  relations : option Relations;
  modifier : option string
}.

Record CreateParamsReturn : Type := {
  params : Params;
  ctx : option value
}.

(** Everything the engine can throw.  The three kinds of [new Error(...)] of
    the source carry their message; [TypeError] is the runtime's own;
    [ClientError] is a rejection of the underlying client. *)
Inductive Error : Type :=
| ConfigError (message : string)
| RelationSafetyError (message : string)
| UniqueIndexGuardError (message : string)
| TypeError (message : string)
| ClientError (reason : value).

Inductive result (A : Type) : Type :=
| Ok (a : A)
| Throw (e : Error).
Arguments Ok {A} a.
Arguments Throw {A} e.

Definition bind {A B : Type} (r : result A) (k : A -> result B) : result B :=
  match r with
  | Ok a => k a
  | Throw e => Throw e
  end.

Definition CreateParams : Type := ModelConfig -> Params -> result CreateParamsReturn.

(** [!!b] on an optional boolean member. *)
Definition flag (b : option bool) : bool :=
  match b with
  | Some true => true
  | _ => false
  end.

(** [!!s] on an optional string. *)
Definition truthy_string (s : option string) : bool :=
  match s with
  | Some x => negb (String.eqb x "")
  | None => false
  end.

(** The computed key [[config.field]]. *)
Definition field_key (config : ModelConfig) : string :=
  opt_to_string (field config).

(** [config.createValue(deleted)]; calling a missing member throws. *)
Definition call_createValue (config : ModelConfig) (deleted : bool)
  : result value :=
  match createValue config with
  | Some f => Ok (f deleted)
  | None => Throw (TypeError "config.createValue is not a function")
  end.

(** [v[k]] without optional chaining: throws on a nullish receiver. *)
Definition get_strict (v : value) (k : string) : result value :=
  if nullish v
  then Throw (TypeError "Cannot read properties of undefined")
  else Ok (get v k).

End Types.

Declare Scope result_scope.
Notation "x <- c ;; k" := (Types.bind c (fun x => k))
  (at level 61, c at next level, right associativity) : result_scope.

(** ** Schema metadata ([Prisma.dmmf.datamodel]) *)
Module Dmmf.
Record Field : Type := {
  field_name : string;
  isId : bool;
  isUnique : bool;
  field_type : string;
  relationToFields : option (list string)
}.

Record Model : Type := {
  model_name : string;
  uniqueFields : list (list string);
  fields : list Field
}.
End Dmmf.

(** ** helpers/createParams.ts *)
Module CreateParams.
Import JS Types.
Local Open Scope result_scope.

(** The double quote of the error messages. *)
Definition dq : string := String (ascii_of_nat 34) EmptyString.

Definition isEmptyObject (obj : value) : result bool :=
  if nullish obj
  then Throw (TypeError "Cannot convert undefined or null to object")
  else Ok (andb (Nat.eqb (List.length (keys obj)) 0)
                match obj with VObj _ => true | _ => false end).

(** A [forEach] whose body may throw. *)
Fixpoint forEach {A B : Type} (l : list B) (body : A -> B -> result A) (acc : A)
  : result A :=
  match l with
  | [] => Ok acc
  | x :: rest => acc' <- body acc x ;; forEach rest body acc'
  end.

(** [{ ...params, operation, args }]. *)
Definition with_operation_args (params : Params) (op : string) (a : value)
  : Params :=
  mkParams (model params) op a (scope params).

(** [{ ...params, args }]. *)
Definition with_args (params : Params) (a : value) : Params :=
  mkParams (model params) (operation params) a (scope params).

(** [{ params }]. *)
Definition just (params : Params) : result CreateParamsReturn :=
  Ok {| params := params; ctx := None |}.

Definition getInclude (config : ModelConfig) (params : Params) : result value :=
  empty <- isEmptyObject (nestModels config) ;;
  if empty then
    Ok (or_else (get (args params) "include") (VObj []))
  else
    include <-
      forEach (keys (or_else (nestModels config) (VObj [])))
        (fun include key =>
           forEach (keys (or_else (get (args params) "include") (VObj [])))
             (fun include model =>
                let where_ :=
                  or_else (get (get (get (args params) "include") model) "where")
                          (VObj []) in
                if includes (toLowerCase model) (toLowerCase key) then
                  if truthy (get (nestModels config) key) then
                    Ok (assoc_set include model (VObj [("where", where_)]))
                  else
                    v <- call_createValue config false ;;
                    Ok (assoc_set include model
                          (VObj [("where",
                                  VObj (assoc_set (own_props where_)
                                          (field_key config) v))]))
                else Ok include)
             include)
        [] ;;
    Ok (VObj include).

Definition getWhere (config : ModelConfig) (params : Params) : result value :=
  let args := or_else (args params) (VObj []) in
  let where_ := or_else (get args "where") (VObj []) in
  match queryOption config with
  | Some all => Ok where_
  | Some only =>
      v <- call_createValue config false ;;
      Ok (VObj (assoc_set (own_props where_) (field_key config)
                  (VObj [("not", v)])))
  | _ =>
      v <- (if truthy (get where_ (field_key config))
            then Ok (get where_ (field_key config))
            else call_createValue config false) ;;
      Ok (VObj (assoc_set (own_props where_) (field_key config) v))
  end.

Definition getNewWhere (config : ModelConfig) (where_ : value) : result value :=
  match queryOption config with
  | Some all => Ok (VObj (own_props where_))
  | Some only =>
      v <- call_createValue config false ;;
      Ok (VObj (assoc_set (own_props where_) (field_key config)
                  (VObj [("not", v)])))
  | _ =>
      v <- call_createValue config false ;;
      Ok (VObj (assoc_set (own_props where_) (field_key config) v))
  end.

Definition createDeleteParams : CreateParams := fun config params =>
  if orb (negb (truthy_string (model params)))
       (orb (andb (String.eqb (typeof (args params)) "boolean")
                  (negb (truthy (args params))))
            (andb (match scope params with None => true | Some _ => false end)
                  (negb (truthy (get (args params) "where")))))
  then just params
  else if String.eqb (typeof (args params)) "boolean" then
    v <- call_createValue config true ;;
    just (with_operation_args params
            (if flag (forceDelete config) then "delete" else "update")
            (VObj (assoc_set [("__passUpdateThrough", VBool true)]
                     (field_key config) v)))
  else
    let where_ := or_else (get (args params) "where") (args params) in
    where_ <- getNewWhere config where_ ;;
    v <- call_createValue config true ;;
    just (with_operation_args params
            (if flag (forceDelete config) then "delete" else "update")
            (VObj [("where", where_);
                   ("data", VObj [(field_key config, v)])])).

Definition createDeleteManyParams : CreateParams := fun config params =>
  if negb (truthy_string (model params)) then just params
  else
    let where_ := or_else (get (args params) "where") (args params) in
    where_ <- getNewWhere config where_ ;;
    if flag (forceDelete config) then
      just (with_operation_args params "deleteMany" (VObj [("where", where_)]))
    else
      v <- call_createValue config true ;;
      just (with_operation_args params "updateMany"
              (VObj [("where", where_);
                     ("data", VObj [(field_key config, v)])])).

(** [scope?.relations && !scope.relations.to.isList]. *)
Definition through_toOne (params : Params) : option Relations :=
  match scope params with
  | Some s =>
      match relations s with
      | Some r => if isList (to r) then None else Some r
      | None => None
      end
  | None => None
  end.

(** [`${scope?.parentParams.model}.${scope.relations.to.name}`]. *)
Definition through_path (params : Params) (r : Relations) : string :=
  opt_to_string (match scope params with
                 | Some s => model (parentParams s)
                 | None => None
                 end)
  ++ "." ++ name (to r).

Definition createUpdateParams : CreateParams := fun config params =>
  _ <- (match through_toOne params with
        | Some r =>
            if andb (negb (flag (allowToOneUpdates config)))
                    (negb (truthy (get (args params) "__passUpdateThrough")))
            then
              Throw (RelationSafetyError
                ("prisma-extension-soft-delete: update of model " ++ dq
                 ++ opt_to_string (model params) ++ dq ++ " through " ++ dq
                 ++ through_path params r ++ dq
                 ++ " found. Updates of soft deleted models through a toOne relation is not supported as it is possible to update a soft deleted record."))
            else Ok tt
        | None => Ok tt
        end) ;;
  (* remove __passUpdateThrough from args *)
  if truthy (get (args params) "__passUpdateThrough") then
    just (with_args params
            match args params with
            | VObj props => VObj (assoc_remove props "__passUpdateThrough")
            | a => a
            end)
  else just params.

Definition createUpdateManyParams : CreateParams := fun config params =>
  (* do nothing if args are not defined to allow Prisma to throw an error *)
  if negb (truthy (args params)) then just params
  else
    let where_ := get (args params) "where" in
    v <- (if truthy (get where_ (field_key config))
          then Ok (get where_ (field_key config))
          else call_createValue config false) ;;
    just (with_args params
            (VObj (assoc_set (own_props (args params)) "where"
                     (VObj (assoc_set (own_props where_)
                              (field_key config) v))))).

Definition createUpsertParams : CreateParams := fun _ params =>
  match through_toOne params with
  | Some r =>
      Throw (RelationSafetyError
        ("prisma-extension-soft-delete: upsert of model " ++ dq
         ++ opt_to_string (model params) ++ dq ++ " through " ++ dq
         ++ through_path params r ++ dq
         ++ " found. Upserts of soft deleted models through a toOne relation is not supported as it is possible to update a soft deleted record."))
  | None => just params
  end.

(** [{ ...params.args, where, ...(isEmptyObject(include) ? {} : { include }) }]. *)
Definition read_args (a where_ include : value) : result value :=
  empty <- isEmptyObject include ;;
  let base := assoc_set (own_props a) "where" where_ in
  Ok (VObj (if empty then base else assoc_set base "include" include)).

Section Metadata.
(** [Prisma.dmmf.datamodel.models], supplied by the generated client. *)
Variable datamodel : list Dmmf.Model.

Definition uniqueIndexFieldsByModel : list (string * list string) :=
  fold_left
    (fun acc m =>
       (* add unique fields derived from indexes *)
       assoc_set acc (Dmmf.model_name m)
         (map (String.concat "_") (Dmmf.uniqueFields m)))
    datamodel [].

Definition uniqueFieldsByModel : list (string * list string) :=
  fold_left
    (fun acc m =>
       (* add id field and unique fields from @unique decorator *)
       assoc_set acc (Dmmf.model_name m)
         (map Dmmf.field_name
            (filter (fun f => orb (Dmmf.isId f) (Dmmf.isUnique f))
               (Dmmf.fields m))))
    datamodel [].

(** [table[params.model || ""] || []]. *)
Definition fields_of (table : list (string * list string))
    (m : option string) : list string :=
  match assoc_get (if truthy_string m then opt_to_string m else "") table with
  | Some l => l
  | None => []
  end.

(** [Object.keys(params.args?.where || {}).find(key =>
    uniqueIndexFields.includes(key))]. *)
Definition uniqueIndexField (params : Params) : option string :=
  find (fun key => mem key (fields_of uniqueIndexFieldsByModel (model params)))
       (keys (or_else (get (args params) "where") (VObj []))).

Definition validateFindUniqueParams (params : Params) (config : ModelConfig)
  : result unit :=
  let uniqueIndexField := uniqueIndexField params in
  if andb (truthy_string uniqueIndexField)
          (negb (flag (allowCompoundUniqueIndexWhere config)))
  then
    Throw (UniqueIndexGuardError
      ("prisma-extension-soft-delete: query of model " ++ dq
       ++ opt_to_string (model params) ++ dq
       ++ " through compound unique index field " ++ dq
       ++ opt_to_string uniqueIndexField ++ dq
       ++ " found. Queries of soft deleted models through a unique index are not supported. Set "
       ++ dq ++ "allowCompoundUniqueIndexWhere" ++ dq
       ++ " to true to override this behaviour."))
  else Ok tt.

Definition shouldPassFindUniqueParamsThrough (params : Params)
    (config : ModelConfig) : bool :=
  let uniqueFields := fields_of uniqueFieldsByModel (model params) in
  let uniqueIndexFields := fields_of uniqueIndexFieldsByModel (model params) in
  let uniqueIndexField := uniqueIndexField params in
  let where_ := get (args params) "where" in
  (* pass through invalid args so Prisma throws an error *)
  orb (negb (truthy where_))
    (orb (negb (String.eqb (typeof where_) "object"))
       (orb (negb (existsb
                     (fun '(key, val) =>
                        andb (orb (mem key uniqueFields)
                                  (mem key uniqueIndexFields))
                             (negb (String.eqb (typeof val) "undefined")))
                     (own_props where_)))
            (andb (truthy_string uniqueIndexField)
                  (flag (allowCompoundUniqueIndexWhere config))))).

Definition createFindUniqueParams : CreateParams := fun config params =>
  if shouldPassFindUniqueParamsThrough params config then just params
  else
    _ <- validateFindUniqueParams params config ;;
    where_ <- getWhere config params ;;
    include <- getInclude config params ;;
    args <- read_args (args params) where_ include ;;
    just (with_operation_args params "findFirst" args).

Definition createFindUniqueOrThrowParams : CreateParams := fun config params =>
  if shouldPassFindUniqueParamsThrough params config then just params
  else
    _ <- validateFindUniqueParams params config ;;
    where_ <- getWhere config params ;;
    include <- getInclude config params ;;
    args <- read_args (args params) where_ include ;;
    just (with_operation_args params "findFirstOrThrow" args).
End Metadata.

Definition createFindFirstParams : CreateParams := fun config params =>
  where_ <- getWhere config params ;;
  include <- getInclude config params ;;
  args <- read_args (args params) where_ include ;;
  just (with_operation_args params "findFirst" args).

Definition createFindFirstOrThrowParams : CreateParams := fun config params =>
  where_ <- getWhere config params ;;
  include <- getInclude config params ;;
  args <- read_args (args params) where_ include ;;
  just (with_operation_args params "findFirstOrThrow" args).

Definition createFindManyParams : CreateParams := fun config params =>
  where_ <- getWhere config params ;;
  include <- getInclude config params ;;
  args <- read_args (args params) where_ include ;;
  just (with_operation_args params "findMany" args).

Definition createGroupByParams : CreateParams := fun config params =>
  where_ <- getWhere config params ;;
  just (with_operation_args params "groupBy"
          (VObj (assoc_set (own_props (args params)) "where" where_))).

Definition createCountParams : CreateParams := fun config params =>
  let args := or_else (args params) (VObj []) in
  where_ <- getWhere config params ;;
  just (with_args params (VObj (assoc_set (own_props args) "where" where_))).

Definition createAggregateParams : CreateParams := fun config params =>
  let args := or_else (args params) (VObj []) in
  where_ <- getWhere config params ;;
  just (with_args params (VObj (assoc_set (own_props args) "where" where_))).

Definition createWhereParams : CreateParams := fun config params =>
  match scope params with
  | None => just params
  | Some s =>
      (* customise list queries with every modifier unless the deleted field is set *)
      every <-
        (match modifier s with
         | Some m =>
             if String.eqb m "every" then
               set <- get_strict (args params) (field_key config) ;;
               Ok (negb (truthy set))
             else Ok false
         | None => Ok false
         end) ;;
      if every then
        v <- call_createValue config false ;;
        just (with_args params
                (VObj [("OR",
                        VArr [VObj [(field_key config, VObj [("not", v)])];
                              args params])]))
      else
        where_ <- getNewWhere config (args params) ;;
        just (with_args params (VObj (own_props where_)))
  end.

Section Select.
(** [addDeletedToSelect] of utils/nestedReads, which is not part of the
    sources at hand. *)
Variable addDeletedToSelect : Params -> ModelConfig -> Params.

Definition createSelectParams : CreateParams := fun config params =>
  (* selects in includes are handled by createIncludeParams *)
  if match scope params with
     | Some s => String.eqb (operation (parentParams s)) "include"
     | None => false
     end
  then just params
  else
    (* selects of toOne relation cannot filter deleted records using params *)
    match through_toOne params with
    | Some _ =>
        if andb (truthy (get (args params) "select"))
                (negb (truthy (get (get (args params) "select")
                                 (field_key config))))
        then
          Ok {| params := addDeletedToSelect params config;
                ctx := Some (VObj [("deletedFieldAdded", VBool true)]) |}
        else just params
    | None =>
        where_ <- getWhere config params ;;
        just (with_args params
                (VObj (assoc_set (own_props (args params)) "where" where_)))
    end.
End Select.

End CreateParams.

(** ** createSoftDeleteExtension.ts *)
Module Extension.
Import JS Types CreateParams.
Local Open Scope result_scope.

Definition rootOperations : list string :=
  ["delete"; "deleteMany"; "update"; "updateMany"; "upsert"; "findFirst";
   "findFirstOrThrow"; "findUnique"; "findUniqueOrThrow"; "findMany"; "count";
   "aggregate"; "groupBy"; "create"].

(** A value of [Config.models]: [ModelConfig | boolean]. *)
Inductive ModelEntry : Type :=
| Flag (enabled : bool)
| Custom (config : ModelConfig).

Record Config : Type := {
  models : list (string * ModelEntry);
  defaultConfig : option ModelConfig
}.

(** What [modelConfig[modelName]] points to.  Every model configured with
    [true] holds a reference to the one [defaultConfig] object, so writing
    through any of them is seen by all; an override is an object of its own. *)
Inductive ConfigRef : Type :=
| SharedDefault
| Own (config : ModelConfig).

Record Store : Type := {
  default : ModelConfig;
  modelConfig : list (string * ConfigRef)
}.

(** [modelConfig[modelName]]. *)
Definition lookup (st : Store) (modelName : string) : option ModelConfig :=
  match assoc_get modelName (modelConfig st) with
  | Some SharedDefault => Some (default st)
  | Some (Own config) => Some config
  | None => None
  end.

(** [modelConfig[modelName]!.member = ...]: a write through the reference;
    [None] is the [TypeError] of writing to [undefined]. *)
Definition assign (st : Store) (modelName : string)
    (f : ModelConfig -> ModelConfig) : option Store :=
  match assoc_get modelName (modelConfig st) with
  | Some SharedDefault =>
      Some {| default := f (default st); modelConfig := modelConfig st |}
  | Some (Own config) =>
      Some {| default := default st;
              modelConfig := assoc_set (modelConfig st) modelName (Own (f config)) |}
  | None => None
  end.

Definition set_forceDelete (b : bool) (c : ModelConfig) : ModelConfig :=
  {| field := field c; createValue := createValue c;
     allowToOneUpdates := allowToOneUpdates c;
     allowCompoundUniqueIndexWhere := allowCompoundUniqueIndexWhere c;
     queryOption := queryOption c; nestModels := nestModels c;
     forceDelete := Some b |}.

Definition set_nestModels (v : value) (c : ModelConfig) : ModelConfig :=
  {| field := field c; createValue := createValue c;
     allowToOneUpdates := allowToOneUpdates c;
     allowCompoundUniqueIndexWhere := allowCompoundUniqueIndexWhere c;
     queryOption := queryOption c; nestModels := v;
     forceDelete := forceDelete c |}.

Definition set_queryOption (q : TrashedOption) (c : ModelConfig) : ModelConfig :=
  {| field := field c; createValue := createValue c;
     allowToOneUpdates := allowToOneUpdates c;
     allowCompoundUniqueIndexWhere := allowCompoundUniqueIndexWhere c;
     queryOption := Some q; nestModels := nestModels c;
     forceDelete := forceDelete c |}.

(** The default value of the [defaultConfig] parameter; [Boolean] is [VBool]
    on booleans. *)
Definition builtinDefault : ModelConfig :=
  {| field := Some "deleted";
     createValue := Some VBool;
     allowToOneUpdates := Some false;
     allowCompoundUniqueIndexWhere := Some false;
     queryOption := Some except;
     nestModels := VObj [];
     forceDelete := Some false |}.

Definition createSoftDeleteExtension (cfg : Config) : result Store :=
  let defaultConfig :=
    match defaultConfig cfg with
    | Some d => d
    | None => builtinDefault
    end in
  if negb (truthy_string (field defaultConfig)) then
    Throw (ConfigError
             "prisma-extension-soft-delete: defaultConfig.field is required")
  else if match createValue defaultConfig with Some _ => false | None => true end
  then
    Throw (ConfigError
             "prisma-extension-soft-delete: defaultConfig.createValue is required")
  else
    let modelNames := map fst (models cfg) in
    Ok {| default := defaultConfig;
          modelConfig :=
            fold_left
              (fun modelConfig modelName =>
                 match assoc_get modelName (models cfg) with
                 | Some (Flag true) =>
                     assoc_set modelConfig modelName SharedDefault
                 | Some (Custom config) =>
                     assoc_set modelConfig modelName (Own config)
                 | Some (Flag false) | None => modelConfig
                 end)
              modelNames [] |}.

(** What a handler did, in order. *)
Inductive Event : Type :=
| Executed (modelName operation : string) (args : value)
| Continued (args : value) (operation : string)
| ResetDone (configModelName : string).

Record Outcome : Type := {
  store : Store;
  events : list Event;
  returned : result value
}.

(** [configModelName[0].toLowerCase() + configModelName.slice(1)]. *)
Definition lowerFirst (s : string) : string :=
  match s with
  | EmptyString => EmptyString
  | String c rest => String (lower_ascii c) rest
  end.

Section Handlers.
Variable datamodel : list Dmmf.Model.
(** The client being extended: [client[modelName][operation](args)]. *)
Variable client : string -> string -> value -> result value.
(** [addDeletedToSelect] of utils/nestedReads and [modifyReadResult] of
    helpers/modifyResult, neither part of the sources at hand. *)
Variable addDeletedToSelect : Params -> ModelConfig -> Params.
Variable modifyReadResult :
  ModelConfig -> value -> Params -> option value -> value.

Definition rules : list (string * CreateParams) :=
  [("delete", createDeleteParams);
   ("deleteMany", createDeleteManyParams);
   ("update", createUpdateParams);
   ("updateMany", createUpdateManyParams);
   ("upsert", createUpsertParams);
   ("findFirst", createFindFirstParams);
   ("findFirstOrThrow", createFindFirstOrThrowParams);
   ("findUnique", createFindUniqueParams datamodel);
   ("findUniqueOrThrow", createFindUniqueOrThrowParams datamodel);
   ("findMany", createFindManyParams);
   ("count", createCountParams);
   ("aggregate", createAggregateParams);
   ("where", createWhereParams);
   ("select", createSelectParams addDeletedToSelect);
   ("groupBy", createGroupByParams)].

(** [createParamsByModel[model]?.[operation]]: the rule bound to the
    config object of the model, read when the rule runs. *)
Definition createParamsByModel (st : Store) (m : option string)
    (op : string) : option (Params -> result CreateParamsReturn) :=
  match lookup st (opt_to_string m), assoc_get op rules with
  | Some config, Some createParams => Some (createParams config)
  | _, _ => None
  end.

(** [modifyResultByModel[model]?.[operation]]. *)
Definition modifyResultByModel (st : Store) (m : option string)
    (op : string) : option (value -> Params -> option value -> value) :=
  match lookup st (opt_to_string m) with
  | Some config =>
      if orb (String.eqb op "include") (String.eqb op "select")
      then Some (modifyReadResult config)
      else None
  | None => None
  end.

Definition reset (c : ModelConfig) : ModelConfig :=
  set_queryOption except (set_nestModels (VObj []) (set_forceDelete false c)).

(** [$rootOperation] of the method [client[modelName][rootOperation]];
    [initialParams.query] is that method of the client. *)
Definition rootOperation (st : Store) (configModelName : string)
    (initialParams : Params) : Outcome :=
  let modelName := lowerFirst configModelName in
  match createParamsByModel st (model initialParams) (operation initialParams) with
  | None =>
      {| store := st;
         events := [Executed modelName (operation initialParams)
                      (args initialParams)];
         returned := client modelName (operation initialParams)
                       (args initialParams) |}
  | Some createParams =>
      match createParams initialParams with
      | Throw e => {| store := st; events := []; returned := Throw e |}
      | Ok {| params := params; ctx := ctx |} =>
          let executed := Executed modelName (operation params) (args params) in
          match client modelName (operation params) (args params) with
          | Throw e =>
              {| store := st; events := [executed]; returned := Throw e |}
          | Ok result =>
              match assign st configModelName reset with
              | None =>
                  {| store := st; events := [executed];
                     returned :=
                       Throw (TypeError "Cannot set properties of undefined") |}
              | Some st' =>
                  {| store := st';
                     events := [executed; ResetDone configModelName];
                     returned :=
                       Ok (match modifyResultByModel st' (model params)
                                   (operation params) with
                           | None => result
                           | Some modifyResult => modifyResult result params ctx
                           end) |}
              end
          end
      end
  end.

(** [$allNestedOperations]; [query] continues the walk of the nested
    operation tree. *)
Definition allNestedOperations (st : Store)
    (query : value -> string -> result value) (initialParams : Params)
  : Outcome :=
  match createParamsByModel st (model initialParams) (operation initialParams) with
  | None =>
      {| store := st;
         events := [Continued (args initialParams) (operation initialParams)];
         returned := query (args initialParams) (operation initialParams) |}
  | Some createParams =>
      match createParams initialParams with
      | Throw e => {| store := st; events := []; returned := Throw e |}
      | Ok {| params := params; ctx := ctx |} =>
          {| store := st;
             events := [Continued (args params) (operation params)];
             returned :=
               result <- query (args params) (operation params) ;;
               Ok (match modifyResultByModel st (model params)
                           (operation params) with
                   | None => result
                   | Some modifyResult => modifyResult result params ctx
                   end) |}
      end
  end.

(** The method [client[modelName][rootOperation]](args) of the extended
    client, for a model [configModelName] of the datamodel.  The walker of
    prisma-extension-nested-operations, which is not part of this
    repository, calls [allNestedOperations] on the nested nodes of the
    argument tree; [args] is the tree it hands to [$rootOperation]. *)
Definition method (st : Store) (configModelName rootOperation_ : string)
    (args : value) : Outcome :=
  rootOperation st configModelName
    {| model := Some configModelName; operation := rootOperation_;
       args := args; scope := None |}.

(** *** The [$allModels] methods; [modelName] is [context.$name] and the
    returned store stands for the returned [context]. *)

Definition forceDelete (st : Store) (modelName : string) (args : value)
  : Outcome :=
  let where_ := or_else (get args "where") (VObj []) in
  match assign st modelName (set_forceDelete true) with
  | None =>
      {| store := st; events := [];
         returned := Throw (TypeError "Cannot set properties of undefined") |}
  | Some st' => method st' modelName "deleteMany" (VObj [("where", where_)])
  end.

Definition withTrashed (st : Store) (modelName : string) : result Store :=
  match assign st modelName (set_queryOption all) with
  | Some st' => Ok st'
  | None => Throw (TypeError "Cannot set properties of undefined")
  end.

Definition onlyTrashed (st : Store) (modelName : string) : result Store :=
  match assign st modelName (set_queryOption only) with
  | Some st' => Ok st'
  | None => Throw (TypeError "Cannot set properties of undefined")
  end.

Definition isIncludeModel (modelName m : string) : bool :=
  match find (fun d => String.eqb (Dmmf.model_name d) modelName) datamodel with
  | Some d =>
      match filter (fun f => String.eqb (Dmmf.field_type f) m) (Dmmf.fields d) with
      | item :: _ =>
          match Dmmf.relationToFields item with
          | Some l => negb (Nat.eqb (List.length l) 0)
          | None => false
          end
      | [] => false
      end
  | None => false
  end.

(** [nestModels] is an object by its declared type; another truthy value
    is left as it is. *)
Definition withTrashedRelated (st : Store) (modelName : string)
    (nestedModels : value) : result Store :=
  if nullish nestedModels
  then Throw (TypeError "Cannot convert undefined or null to object")
  else
    Ok (fold_left
          (fun st key =>
             match lookup st modelName with
             | Some config =>
                 if andb (truthy (nestModels config))
                         (isIncludeModel modelName key)
                 then
                   match nestModels config with
                   | VObj props =>
                       let v := match get nestedModels key with
                                | VBool true => true
                                | _ => false
                                end in
                       match assign st modelName
                               (set_nestModels
                                  (VObj (assoc_set props key (VBool v)))) with
                       | Some st' => st'
                       | None => st
                       end
                   | _ => st
                   end
                 else st
             | None => st
             end)
          (keys nestedModels) st).

End Handlers.
End Extension.

(** ** A small schema and client used to run the definitions *)
Module Scenario.
Import JS Types CreateParams.

Definition userModel : Dmmf.Model :=
  {| Dmmf.model_name := "User";
     Dmmf.uniqueFields := [["firstName"; "lastName"]];
     Dmmf.fields :=
       [ {| Dmmf.field_name := "id"; Dmmf.isId := true; Dmmf.isUnique := false;
            Dmmf.field_type := "Int"; Dmmf.relationToFields := None |};
         {| Dmmf.field_name := "email"; Dmmf.isId := false; Dmmf.isUnique := true;
            Dmmf.field_type := "String"; Dmmf.relationToFields := None |};
         {| Dmmf.field_name := "firstName"; Dmmf.isId := false;
            Dmmf.isUnique := false; Dmmf.field_type := "String";
            Dmmf.relationToFields := None |};
         {| Dmmf.field_name := "lastName"; Dmmf.isId := false;
            Dmmf.isUnique := false; Dmmf.field_type := "String";
            Dmmf.relationToFields := None |};
         {| Dmmf.field_name := "posts"; Dmmf.isId := false; Dmmf.isUnique := false;
            Dmmf.field_type := "Post"; Dmmf.relationToFields := Some [] |};
         {| Dmmf.field_name := "comments"; Dmmf.isId := false;
            Dmmf.isUnique := false; Dmmf.field_type := "Comment";
            Dmmf.relationToFields := Some [] |} ] |}.

Definition postModel : Dmmf.Model :=
  {| Dmmf.model_name := "Post";
     Dmmf.uniqueFields := [];
     Dmmf.fields :=
       [ {| Dmmf.field_name := "id"; Dmmf.isId := true; Dmmf.isUnique := false;
            Dmmf.field_type := "Int"; Dmmf.relationToFields := None |};
         {| Dmmf.field_name := "title"; Dmmf.isId := false; Dmmf.isUnique := false;
            Dmmf.field_type := "String"; Dmmf.relationToFields := None |};
         {| Dmmf.field_name := "author"; Dmmf.isId := false; Dmmf.isUnique := false;
            Dmmf.field_type := "User"; Dmmf.relationToFields := Some ["id"] |} ] |}.

Definition commentModel : Dmmf.Model :=
  {| Dmmf.model_name := "Comment";
     Dmmf.uniqueFields := [];
     Dmmf.fields :=
       [ {| Dmmf.field_name := "id"; Dmmf.isId := true; Dmmf.isUnique := false;
            Dmmf.field_type := "Int"; Dmmf.relationToFields := None |};
         {| Dmmf.field_name := "content"; Dmmf.isId := false;
            Dmmf.isUnique := false; Dmmf.field_type := "String";
            Dmmf.relationToFields := None |};
         {| Dmmf.field_name := "user"; Dmmf.isId := false; Dmmf.isUnique := false;
            Dmmf.field_type := "User"; Dmmf.relationToFields := Some ["id"] |};
         {| Dmmf.field_name := "post"; Dmmf.isId := false; Dmmf.isUnique := false;
            Dmmf.field_type := "Post"; Dmmf.relationToFields := Some ["id"] |} ] |}.

Definition datamodel : list Dmmf.Model := [userModel; postModel; commentModel].

(** A client that answers every call, and one that rejects every call. *)
Definition answering : string -> string -> value -> result value :=
  fun _ _ _ => Ok (VObj []).
Definition rejecting : string -> string -> value -> result value :=
  fun _ _ _ => Throw (ClientError (VStr "storage failure")).

Definition keepSelect : Params -> ModelConfig -> Params := fun p _ => p.
Definition keepResult : ModelConfig -> value -> Params -> option value -> value :=
  fun _ r _ _ => r.

(** [createSoftDeleteExtension({ models: { User: true, Post: true } })]. *)
Definition allDefault : Extension.Config :=
  {| Extension.models := [("User", Extension.Flag true);
                          ("Post", Extension.Flag true);
                          ("Comment", Extension.Flag true)];
     Extension.defaultConfig := None |}.

Definition store0 : Extension.Store :=
  {| Extension.default := Extension.builtinDefault;
     Extension.modelConfig := [("User", Extension.SharedDefault);
                               ("Post", Extension.SharedDefault);
                               ("Comment", Extension.SharedDefault)] |}.

(** The built-in default with [allowCompoundUniqueIndexWhere: true]. *)
Definition allowingCompound : ModelConfig :=
  {| field := Some "deleted"; createValue := Some VBool;
     allowToOneUpdates := Some false;
     allowCompoundUniqueIndexWhere := Some true;
     queryOption := Some except; nestModels := VObj [];
     forceDelete := Some false |}.

(** [{ where: { firstName_lastName: { firstName: "Ada", lastName: "Lovelace" } } }]. *)
Definition whereFullName : value :=
  VObj [("where",
         VObj [("firstName_lastName",
                VObj [("firstName", VStr "Ada");
                      ("lastName", VStr "Lovelace")])])].

(** An override object with neither [field] nor [createValue]. *)
Definition bareOverride : ModelConfig :=
  {| field := None; createValue := None;
     allowToOneUpdates := Some true;
     allowCompoundUniqueIndexWhere := None;
     queryOption := None; nestModels := VUndefined;
     forceDelete := None |}.

(** [{ include: { user: true, post: true } }]. *)
Definition includeUserPost : value :=
  VObj [("include", VObj [("user", VBool true); ("post", VBool true)])].

(** [{ where: { id: 1 } }]. *)
Definition whereId1 : value := VObj [("where", VObj [("id", VNum 1)])].

Definition rootParams (m op : string) (a : value) : Params :=
  {| model := Some m; operation := op; args := a; scope := None |}.

(** A node reached from [Post.update] through the relation [rel]. *)
Definition nestedParams (m op : string) (a : value) (rel : string)
    (list : bool) (modifier : option string) : Params :=
  {| model := Some m; operation := op; args := a;
     scope := Some {| parentParams := rootParams "Post" "update" (VObj []);
                      relations := Some {| to := {| name := rel; isList := list |} |};
                      modifier := modifier |} |}.

End Scenario.

(** The read operations among [rootOperations]. *)
Definition readOperations : list string :=
  ["findFirst"; "findFirstOrThrow"; "findUnique"; "findUniqueOrThrow";
   "findMany"; "count"; "aggregate"; "groupBy"].

(** The kind a read rule gives to the operation it returns, when it does not
    pass it through: the two point lookups become their [findFirst]
    counterparts, [count] and [aggregate] keep the kind they came with, the
    others set their own name. *)
Definition readKind (op initial : string) : string :=
  if String.eqb op "findUnique" then "findFirst"
  else if String.eqb op "findUniqueOrThrow" then "findFirstOrThrow"
  else if orb (String.eqb op "count") (String.eqb op "aggregate") then initial
  else op.

(** * Properties *)

(** ** Objects and the store *)
Module Facts.
Import JS Types CreateParams Extension.

Section AssocFacts.
Context {A : Type}.
Implicit Types (l : list (string * A)) (k : string) (v : A).

Lemma assoc_get_set_same l k v : assoc_get k (assoc_set l k v) = Some v.
Proof.
  induction l as [|[k' v'] rest IH]; simpl.
  - now rewrite String.eqb_refl.
  - destruct (String.eqb k k') eqn:E; simpl; rewrite E; [reflexivity|exact IH].
Qed.

Lemma assoc_get_set_other l k k' v :
  k' <> k -> assoc_get k' (assoc_set l k v) = assoc_get k' l.
Proof.
  intros Hne. induction l as [|[k0 v0] rest IH]; simpl.
  - apply String.eqb_neq in Hne. now rewrite Hne.
  - destruct (String.eqb k k0) eqn:E; simpl.
    + apply String.eqb_eq in E. subst k0.
      apply String.eqb_neq in Hne. now rewrite Hne.
    + now rewrite IH.
Qed.

Lemma assoc_get_In l k v : assoc_get k l = Some v -> In (k, v) l.
Proof.
  induction l as [|[k0 v0] rest IH]; simpl; [discriminate|].
  destruct (String.eqb k k0) eqn:E.
  - apply String.eqb_eq in E. intros [= ->]. subst. now left.
  - intros H. right. now apply IH.
Qed.
End AssocFacts.

Lemma get_obj props k :
  get (VObj props) k =
  match assoc_get k props with Some x => x | None => VUndefined end.
Proof.
  unfold get. simpl. destruct (assoc_get k props); [reflexivity|].
  now destruct (String.eqb k "length").
Qed.

Lemma get_set_same props k v : get (VObj (assoc_set props k v)) k = v.
Proof. now rewrite get_obj, assoc_get_set_same. Qed.

Lemma get_set_other props k k' v :
  k' <> k -> get (VObj (assoc_set props k v)) k' = get (VObj props) k'.
Proof. intros H. now rewrite !get_obj, assoc_get_set_other. Qed.

Lemma truthy_string_spec m :
  truthy_string m = true <-> exists s, m = Some s /\ s <> "".
Proof.
  destruct m as [s|]; simpl.
  - rewrite negb_true_iff, String.eqb_neq. split.
    + intros H. now exists s.
    + now intros (s' & [= <-] & H).
  - split; [discriminate|]. now intros (s & [=] & _).
Qed.

(** A write through [modelConfig[modelName]] is read back through it. *)
Lemma lookup_assign st modelName config f :
  lookup st modelName = Some config ->
  exists st', assign st modelName f = Some st'
              /\ lookup st' modelName = Some (f config).
Proof.
  unfold lookup, assign.
  destruct (assoc_get modelName (modelConfig st)) as [[|own]|] eqn:E;
    intros [= <-]; eexists; split; try reflexivity; simpl.
  - now rewrite E.
  - now rewrite assoc_get_set_same.
Qed.

End Facts.

Import JS Types CreateParams.
Import Facts.

(** ** Deleting *)

Lemma getNewWhere_total config cv w :
  createValue config = Some cv ->
  exists where_, getNewWhere config w = Ok where_.
Proof.
  intros Hcv. unfold getNewWhere, call_createValue. rewrite Hcv.
  destruct (queryOption config) as [[| |]|]; simpl; eauto.
Qed.

Lemma get_where_truthy_not_boolean a :
  truthy (get a "where") = true -> String.eqb (typeof a) "boolean" = false.
Proof. destruct a; simpl; try reflexivity; discriminate. Qed.

Lemma createDeleteParams_root_where config params cv m where_ :
  model params = Some m -> m <> "" ->
  truthy (get (args params) "where") = true ->
  createValue config = Some cv ->
  getNewWhere config (get (args params) "where") = Ok where_ ->
  createDeleteParams config params =
  Ok {| params :=
          with_operation_args params
            (if flag (forceDelete config) then "delete" else "update")
            (VObj [("where", where_);
                   ("data", VObj [(field_key config, cv true)])]);
        ctx := None |}.
Proof.
  intros Hm Hne Hw Hcv Hnw. unfold createDeleteParams.
  assert (Hts : truthy_string (model params) = true)
    by (apply truthy_string_spec; eauto).
  rewrite Hts, Hw, (get_where_truthy_not_boolean _ Hw). simpl.
  destruct (scope params); simpl;
    unfold or_else; rewrite Hw, Hnw; simpl;
    unfold call_createValue; rewrite Hcv; reflexivity.
Qed.

(** C2. A root [delete] that has a [where], on a model whose config leaves
    [forceDelete] unset, is rewritten to an [update] whose [data] sets the
    configured field to [createValue(true)]; the only call the method makes
    to the client is that [update], so no physical delete is issued. *)
Theorem root_delete_is_soft_update
    (datamodel : list Dmmf.Model)
    (client : string -> string -> value -> result value)
    (addDeletedToSelect : Params -> ModelConfig -> Params)
    (modifyReadResult : ModelConfig -> value -> Params -> option value -> value)
    (st : Extension.Store) (configModelName : string)
    (config : ModelConfig) (cv : bool -> value) (a : value) :
  Extension.lookup st configModelName = Some config ->
  configModelName <> "" ->
  truthy (get a "where") = true ->
  flag (forceDelete config) = false ->
  createValue config = Some cv ->
  exists where_ rest,
    getNewWhere config (get a "where") = Ok where_
    /\ createDeleteParams config
         {| model := Some configModelName; operation := "delete";
            args := a; scope := None |}
       = Ok {| params :=
                 {| model := Some configModelName; operation := "update";
                    args := VObj [("where", where_);
                                  ("data", VObj [(field_key config, cv true)])];
                    scope := None |};
               ctx := None |}
    /\ Extension.events
         (Extension.method datamodel client addDeletedToSelect modifyReadResult
            st configModelName "delete" a)
       = Extension.Executed (Extension.lowerFirst configModelName) "update"
           (VObj [("where", where_);
                  ("data", VObj [(field_key config, cv true)])]) :: rest
    /\ (rest = [] \/ rest = [Extension.ResetDone configModelName]).
Proof.
  intros Hst Hne Hw Hfd Hcv.
  destruct (getNewWhere_total config cv (get a "where") Hcv) as [where_ Hnw].
  pose proof (createDeleteParams_root_where config
                {| model := Some configModelName; operation := "delete";
                   args := a; scope := None |}
                cv configModelName where_ eq_refl Hne Hw Hcv Hnw) as Hrule.
  rewrite Hfd in Hrule. unfold with_operation_args in Hrule. simpl in Hrule.
  exists where_.
  unfold Extension.method, Extension.rootOperation, Extension.createParamsByModel.
  simpl. rewrite Hst, Hrule. simpl.
  destruct (client _ _ _) as [res|e]; simpl.
  - destruct (lookup_assign st configModelName config Extension.reset Hst)
      as (st' & Hassign & _).
    rewrite Hassign. simpl. eexists. repeat split; auto.
  - eexists. repeat split; auto.
Qed.

Lemma root_delete_is_soft_update_witness :
  exists where_ rest,
    getNewWhere Extension.builtinDefault (get Scenario.whereId1 "where") = Ok where_
    /\ createDeleteParams Extension.builtinDefault
         {| model := Some "User"; operation := "delete";
            args := Scenario.whereId1; scope := None |}
       = Ok {| params :=
                 {| model := Some "User"; operation := "update";
                    args := VObj [("where", where_);
                                  ("data",
                                   VObj [(field_key Extension.builtinDefault,
                                          VBool true)])];
                    scope := None |};
               ctx := None |}
    /\ Extension.events
         (Extension.method Scenario.datamodel Scenario.answering
            Scenario.keepSelect Scenario.keepResult
            Scenario.store0 "User" "delete" Scenario.whereId1)
       = Extension.Executed (Extension.lowerFirst "User") "update"
           (VObj [("where", where_);
                  ("data", VObj [(field_key Extension.builtinDefault,
                                  VBool true)])]) :: rest
    /\ (rest = [] \/ rest = [Extension.ResetDone "User"]).
Proof.
  apply (root_delete_is_soft_update Scenario.datamodel Scenario.answering
           Scenario.keepSelect Scenario.keepResult Scenario.store0 "User"
           Extension.builtinDefault VBool Scenario.whereId1);
    try reflexivity.
  discriminate.
Defined.

(** C9, as stated, fails: with [forceDelete] set the kind stays [delete],
    but the args are rebuilt: the [where] goes through [getNewWhere] and the
    delete-marking [data] is attached. *)
Lemma forced_delete_args_are_rebuilt :
  let config := Extension.set_forceDelete true Extension.builtinDefault in
  let initial := Scenario.rootParams "User" "delete" Scenario.whereId1 in
  createDeleteParams config initial
  = Ok {| params :=
            Scenario.rootParams "User" "delete"
              (VObj [("where", VObj [("id", VNum 1); ("deleted", VBool false)]);
                     ("data", VObj [("deleted", VBool true)])]);
          ctx := None |}
  /\ ~ (forall r, createDeleteParams config initial = Ok r ->
                  operation (params r) = "delete"
                  /\ args (params r) = args initial).
Proof.
  split; [reflexivity|].
  intros H. specialize (H _ eq_refl). destruct H as [_ H]. discriminate H.
Qed.

(** C9, amended.  With [forceDelete] set, a [delete] that is not passed
    through keeps the kind [delete]; when its args are not the boolean
    shorthand, the [where] that is sent on is the new-where transform of the
    caller's [where], which in mode [all] is a copy of it. *)
Theorem forced_delete_keeps_kind
    (config : ModelConfig) (params : Params) (cv : bool -> value) (m : string) :
  model params = Some m -> m <> "" ->
  flag (forceDelete config) = true ->
  createValue config = Some cv ->
  args params <> VBool false ->
  (scope params = None -> truthy (get (args params) "where") = true) ->
  exists r,
    createDeleteParams config params = Ok r
    /\ operation (Types.params r) = "delete"
    /\ model (Types.params r) = model params
    /\ scope (Types.params r) = scope params
    /\ (String.eqb (typeof (args params)) "boolean" = false ->
        let w := or_else (get (args params) "where") (args params) in
        getNewWhere config w = Ok (get (args (Types.params r)) "where")
        /\ (queryOption config = Some all ->
            get (args (Types.params r)) "where" = VObj (own_props w))).
Proof.
  intros Hm Hne Hfd Hcv Hnf Hroot. unfold createDeleteParams.
  assert (Hts : truthy_string (model params) = true)
    by (apply truthy_string_spec; eauto).
  rewrite Hts, Hfd. simpl.
  assert (Hguard :
    orb (andb (String.eqb (typeof (args params)) "boolean")
              (negb (truthy (args params))))
        (andb (match scope params with None => true | Some _ => false end)
              (negb (truthy (get (args params) "where")))) = false).
  { apply orb_false_iff. split.
    - destruct (args params) as [| |[|]| | | | |]; simpl; try reflexivity.
      now contradiction Hnf.
    - destruct (scope params); simpl; [reflexivity|].
      now rewrite Hroot. }
  rewrite Hguard.
  destruct (String.eqb (typeof (args params)) "boolean") eqn:Hty.
  - unfold call_createValue. rewrite Hcv. simpl.
    eexists. split; [reflexivity|]. simpl.
    repeat (split; [reflexivity|]). discriminate.
  - destruct (getNewWhere_total config cv
                (or_else (get (args params) "where") (args params)) Hcv)
      as [where_ Hnw].
    rewrite Hnw. simpl. unfold call_createValue. rewrite Hcv. simpl.
    eexists. split; [reflexivity|]. simpl.
    repeat (split; [reflexivity|]).
    intros Hall. unfold getNewWhere in Hnw. rewrite Hall in Hnw.
    injection Hnw as Hw. subst where_. reflexivity.
Qed.

Lemma forced_delete_keeps_kind_witness :
  exists r,
    createDeleteParams (Extension.set_forceDelete true Extension.builtinDefault)
      (Scenario.rootParams "User" "delete" Scenario.whereId1) = Ok r
    /\ operation (Types.params r) = "delete"
    /\ model (Types.params r) = Some "User"
    /\ scope (Types.params r) = None
    /\ (String.eqb (typeof Scenario.whereId1) "boolean" = false ->
        let w := or_else (get Scenario.whereId1 "where") Scenario.whereId1 in
        getNewWhere (Extension.set_forceDelete true Extension.builtinDefault) w
        = Ok (get (args (Types.params r)) "where")
        /\ (queryOption (Extension.set_forceDelete true Extension.builtinDefault)
            = Some all ->
            get (args (Types.params r)) "where" = VObj (own_props w))).
Proof.
  apply (forced_delete_keeps_kind
           (Extension.set_forceDelete true Extension.builtinDefault)
           (Scenario.rootParams "User" "delete" Scenario.whereId1)
           VBool "User"); try reflexivity; discriminate.
Defined.

(** ** Updating through a relation *)

(** C6. A nested [update] reached through a to-one relation, without the
    [__passUpdateThrough] sentinel, throws the relation-safety error when
    [allowToOneUpdates] is not set, and is returned as it came when it is. *)
Theorem nested_toOne_update_guard
    (config : ModelConfig) (params : Params) (s : Scope) (r : Relations) :
  scope params = Some s ->
  relations s = Some r ->
  isList (to r) = false ->
  truthy (get (args params) "__passUpdateThrough") = false ->
  (flag (allowToOneUpdates config) = false ->
   exists message,
     createUpdateParams config params = Throw (RelationSafetyError message))
  /\ (flag (allowToOneUpdates config) = true ->
      createUpdateParams config params = Ok {| params := params; ctx := None |}).
Proof.
  intros Hs Hr Hl Hsent. unfold createUpdateParams, through_toOne.
  rewrite Hs, Hr, Hl, Hsent. simpl.
  split; intros ->; simpl; [eexists; reflexivity | reflexivity].
Qed.

Lemma nested_toOne_update_guard_witness :
  exists message,
    createUpdateParams Extension.builtinDefault
      (Scenario.nestedParams "User" "update"
         (VObj [("data", VObj [("email", VStr "a@b.c")])]) "author" false None)
    = Throw (RelationSafetyError message).
Proof.
  exact (proj1 (nested_toOne_update_guard Extension.builtinDefault
                  (Scenario.nestedParams "User" "update"
                     (VObj [("data", VObj [("email", VStr "a@b.c")])])
                     "author" false None)
                  _ _ eq_refl eq_refl eq_refl eq_refl) eq_refl).
Defined.

(** ** The handlers and the shared config *)

Section Dispatch.
Variable datamodel : list Dmmf.Model.
Variable client : string -> string -> value -> result value.
Variable addDeletedToSelect : Params -> ModelConfig -> Params.
Variable modifyReadResult :
  ModelConfig -> value -> Params -> option value -> value.

Let method :=
  Extension.method datamodel client addDeletedToSelect modifyReadResult.
Let rules := Extension.rules datamodel addDeletedToSelect.

(** What the root handler does, by the three ways a call can end. *)
Lemma method_outcome st m op a config rule :
  Extension.lookup st m = Some config ->
  assoc_get op rules = Some rule ->
  let initial := {| model := Some m; operation := op; args := a;
                    scope := None |} in
  let out := method st m op a in
  match rule config initial with
  | Throw e =>
      Extension.store out = st /\ Extension.events out = []
      /\ Extension.returned out = Throw e
  | Ok r =>
      let executed :=
        Extension.Executed (Extension.lowerFirst m)
          (operation (params r)) (args (params r)) in
      match client (Extension.lowerFirst m)
              (operation (params r)) (args (params r)) with
      | Throw e =>
          Extension.store out = st /\ Extension.events out = [executed]
          /\ Extension.returned out = Throw e
      | Ok _ =>
          Extension.lookup (Extension.store out) m
          = Some (Extension.reset config)
          /\ Extension.events out = [executed; Extension.ResetDone m]
      end
  end.
Proof.
  intros Hst Hrule initial out. subst out method rules.
  unfold Extension.method, Extension.rootOperation,
    Extension.createParamsByModel.
  cbn [model operation args opt_to_string]. rewrite Hst, Hrule.
  fold initial.
  destruct (rule config initial) as [[p c]|e]; simpl; [|auto].
  destruct (client _ _ _) as [res|e]; simpl; [|auto].
  destruct (lookup_assign st m config Extension.reset Hst)
    as (st' & Hassign & Hlook).
  rewrite Hassign. simpl. auto.
Qed.

Lemma allNestedOperations_keeps_store st query initialParams :
  let out :=
    Extension.allNestedOperations datamodel addDeletedToSelect
      modifyReadResult st query initialParams in
  Extension.store out = st
  /\ forall m, ~ In (Extension.ResetDone m) (Extension.events out).
Proof.
  unfold Extension.allNestedOperations.
  destruct (Extension.createParamsByModel _ _ _ _ _) as [createParams|];
    simpl.
  - destruct (createParams initialParams) as [[p c]|e]; simpl;
      (split; [reflexivity|]); intros m Hin; simpl in Hin;
      intuition discriminate.
  - split; [reflexivity|]. intros m [H|[]]. discriminate H.
Qed.
End Dispatch.

(** C4, as stated, fails: a root call whose execution is rejected by the
    client leaves the config as it was.  Here [withTrashed()] has put the
    shared default into mode [all]; it is still there after the failed
    [findMany], and no reset took place. *)
Lemma reset_skipped_when_client_rejects :
  let st :=
    {| Extension.default :=
         Extension.set_queryOption all Extension.builtinDefault;
       Extension.modelConfig := Extension.modelConfig Scenario.store0 |} in
  let out :=
    Extension.method Scenario.datamodel Scenario.rejecting
      Scenario.keepSelect Scenario.keepResult st "User" "findMany" (VObj []) in
  Extension.withTrashed Scenario.store0 "User" = Ok st
  /\ Extension.returned out = Throw (ClientError (VStr "storage failure"))
  /\ Extension.events out
     = [Extension.Executed "user" "findMany" (VObj [("where", VObj [])])]
  /\ option_map queryOption (Extension.lookup (Extension.store out) "User")
     = Some (Some all)
  /\ ~ In (Extension.ResetDone "User") (Extension.events out).
Proof.
  repeat (split; [reflexivity|]). simpl. intros [H|[]]. discriminate H.
Qed.

(** C4, amended.  For a root operation that has a rewrite rule, on a model
    that is configured: when the rewrite and the execution both succeed, the
    model's [forceDelete], [nestModels] and [queryOption] are reset to
    [false], [{}] and ["except"] exactly once, after the execution; when the
    rewrite throws, or the client rejects, the store is left as it was and no
    reset takes place. *)
Theorem root_reset_only_after_success
    (datamodel : list Dmmf.Model)
    (client : string -> string -> value -> result value)
    (addDeletedToSelect : Params -> ModelConfig -> Params)
    (modifyReadResult : ModelConfig -> value -> Params -> option value -> value)
    (st : Extension.Store) (m op : string) (a : value)
    (config : ModelConfig) (rule : CreateParams) :
  Extension.lookup st m = Some config ->
  assoc_get op (Extension.rules datamodel addDeletedToSelect) = Some rule ->
  let initial := {| model := Some m; operation := op; args := a;
                    scope := None |} in
  let out :=
    Extension.method datamodel client addDeletedToSelect modifyReadResult
      st m op a in
  let executed r :=
    Extension.Executed (Extension.lowerFirst m)
      (operation (params r)) (args (params r)) in
  (forall r res,
      rule config initial = Ok r ->
      client (Extension.lowerFirst m) (operation (params r)) (args (params r))
      = Ok res ->
      Extension.events out = [executed r; Extension.ResetDone m]
      /\ exists config',
          Extension.lookup (Extension.store out) m = Some config'
          /\ forceDelete config' = Some false
          /\ nestModels config' = VObj []
          /\ queryOption config' = Some except
          /\ field config' = field config
          /\ createValue config' = createValue config
          /\ allowToOneUpdates config' = allowToOneUpdates config
          /\ allowCompoundUniqueIndexWhere config'
             = allowCompoundUniqueIndexWhere config)
  /\ (forall r e,
         rule config initial = Ok r ->
         client (Extension.lowerFirst m) (operation (params r)) (args (params r))
         = Throw e ->
         Extension.store out = st /\ Extension.events out = [executed r]
         /\ Extension.returned out = Throw e)
  /\ (forall e,
         rule config initial = Throw e ->
         Extension.store out = st /\ Extension.events out = []
         /\ Extension.returned out = Throw e).
Proof.
  intros Hst Hrule initial out executed.
  pose proof (method_outcome datamodel client addDeletedToSelect
                modifyReadResult st m op a config rule Hst Hrule) as H.
  cbv zeta in H. fold initial out in H.
  split; [|split].
  - intros r res Hr Hc. rewrite Hr, Hc in H. destruct H as [Hl He].
    split; [exact He|]. exists (Extension.reset config).
    rewrite Hl. repeat split.
  - intros r e Hr Hc. rewrite Hr, Hc in H. exact H.
  - intros e Hr. rewrite Hr in H. exact H.
Qed.

Lemma root_reset_only_after_success_witness :
  let out :=
    Extension.method Scenario.datamodel Scenario.answering
      Scenario.keepSelect Scenario.keepResult
      {| Extension.default :=
           Extension.set_queryOption all Extension.builtinDefault;
         Extension.modelConfig := Extension.modelConfig Scenario.store0 |}
      "User" "findMany" (VObj []) in
  Extension.events out
  = [Extension.Executed "user" "findMany" (VObj [("where", VObj [])]);
     Extension.ResetDone "User"]
  /\ exists config',
      Extension.lookup (Extension.store out) "User" = Some config'
      /\ forceDelete config' = Some false
      /\ nestModels config' = VObj []
      /\ queryOption config' = Some except
      /\ field config' = Some "deleted"
      /\ createValue config' = Some VBool
      /\ allowToOneUpdates config' = Some false
      /\ allowCompoundUniqueIndexWhere config' = Some false.
Proof.
  exact (proj1 (root_reset_only_after_success Scenario.datamodel
                  Scenario.answering Scenario.keepSelect Scenario.keepResult
                  {| Extension.default :=
                       Extension.set_queryOption all Extension.builtinDefault;
                     Extension.modelConfig :=
                       Extension.modelConfig Scenario.store0 |}
                  "User" "findMany" (VObj [])
                  (Extension.set_queryOption all Extension.builtinDefault)
                  createFindManyParams eq_refl eq_refl)
           _ (VObj []) eq_refl eq_refl).
Defined.

(** ** forceDelete *)

Lemma createDeleteManyParams_forced config m a scope_ where_ :
  m <> "" ->
  flag (forceDelete config) = true ->
  getNewWhere config (or_else (get a "where") a) = Ok where_ ->
  createDeleteManyParams config
    {| model := Some m; operation := "deleteMany"; args := a; scope := scope_ |}
  = Ok {| params := {| model := Some m; operation := "deleteMany";
                       args := VObj [("where", where_)]; scope := scope_ |};
          ctx := None |}.
Proof.
  intros Hne Hfd Hnw. unfold createDeleteManyParams. simpl.
  apply String.eqb_neq in Hne. rewrite Hne. simpl.
  rewrite Hnw. simpl. rewrite Hfd. reflexivity.
Qed.

(** C3, as stated, fails: in the default mode [except] the [deleteMany]
    that [forceDelete] issues does not carry the caller's [where] but its
    new-where transform, which adds [deleted: false]. *)
Lemma forceDelete_where_is_scoped :
  let out :=
    Extension.forceDelete Scenario.datamodel Scenario.answering
      Scenario.keepSelect Scenario.keepResult
      Scenario.store0 "User" Scenario.whereId1 in
  Extension.events out
  = [Extension.Executed "user" "deleteMany"
       (VObj [("where", VObj [("id", VNum 1); ("deleted", VBool false)])]);
     Extension.ResetDone "User"]
  /\ VObj [("id", VNum 1); ("deleted", VBool false)]
     <> get Scenario.whereId1 "where".
Proof. split; [reflexivity|discriminate]. Qed.

(** C3, amended.  On a configured model, [forceDelete(args)] issues exactly
    one call to the client, a physical [deleteMany], whatever the value of
    [forceDelete] was before; its [where] is the new-where transform of the
    caller's [where] under the model's current [queryOption]: a copy of the
    caller's [where] in mode [all], and the caller's [where] with the
    configured field constrained in the modes [only] and [except]. *)
Theorem forceDelete_issues_one_deleteMany
    (datamodel : list Dmmf.Model)
    (client : string -> string -> value -> result value)
    (addDeletedToSelect : Params -> ModelConfig -> Params)
    (modifyReadResult : ModelConfig -> value -> Params -> option value -> value)
    (st : Extension.Store) (modelName : string)
    (config : ModelConfig) (cv : bool -> value) (a : value) :
  Extension.lookup st modelName = Some config ->
  modelName <> "" ->
  createValue config = Some cv ->
  let w := or_else (get a "where") (VObj []) in
  exists where_ rest,
    getNewWhere config w = Ok where_
    /\ Extension.events
         (Extension.forceDelete datamodel client addDeletedToSelect
            modifyReadResult st modelName a)
       = Extension.Executed (Extension.lowerFirst modelName) "deleteMany"
           (VObj [("where", where_)]) :: rest
    /\ (rest = [] \/ rest = [Extension.ResetDone modelName])
    /\ match queryOption config with
       | Some all => where_ = VObj (own_props w)
       | Some only =>
           where_ = VObj (assoc_set (own_props w) (field_key config)
                            (VObj [("not", cv false)]))
       | _ => where_ = VObj (assoc_set (own_props w) (field_key config)
                               (cv false))
       end.
Proof.
  intros Hst Hne Hcv w.
  destruct (getNewWhere_total config cv w Hcv) as [where_ Hnw].
  destruct (lookup_assign st modelName config (Extension.set_forceDelete true) Hst)
    as (st' & Hassign & Hst').
  assert (Hw : or_else (get (VObj [("where", w)]) "where") (VObj [("where", w)]) = w).
  { change (get (VObj [("where", w)]) "where") with w.
    unfold or_else. subst w. unfold or_else.
    destruct (truthy (get a "where")) eqn:E; [now rewrite E|reflexivity]. }
  assert (Hrule :
    createDeleteManyParams (Extension.set_forceDelete true config)
      {| model := Some modelName; operation := "deleteMany";
         args := VObj [("where", w)]; scope := None |}
    = Ok {| params := {| model := Some modelName; operation := "deleteMany";
                         args := VObj [("where", where_)]; scope := None |};
            ctx := None |}).
  { apply createDeleteManyParams_forced; [exact Hne|reflexivity|].
    rewrite Hw. exact Hnw. }
  pose proof (method_outcome datamodel client addDeletedToSelect
                modifyReadResult st' modelName "deleteMany" (VObj [("where", w)])
                _ createDeleteManyParams Hst' eq_refl) as H.
  cbv zeta in H. rewrite Hrule in H. cbn [params operation args] in H.
  exists where_. unfold Extension.forceDelete. fold w. rewrite Hassign.
  assert (Hshape :
    match queryOption config with
    | Some all => where_ = VObj (own_props w)
    | Some only =>
        where_ = VObj (assoc_set (own_props w) (field_key config)
                         (VObj [("not", cv false)]))
    | _ => where_ = VObj (assoc_set (own_props w) (field_key config) (cv false))
    end).
  { unfold getNewWhere, call_createValue in Hnw. rewrite Hcv in Hnw.
    destruct (queryOption config) as [[| |]|]; simpl in Hnw;
      now injection Hnw as <-. }
  destruct (client _ _ _) as [res|e].
  - destruct H as [_ He]. rewrite He. eexists. repeat split; auto.
  - destruct H as (_ & He & _). rewrite He. eexists. repeat split; auto.
Qed.

Lemma forceDelete_issues_one_deleteMany_witness :
  exists where_ rest,
    getNewWhere Extension.builtinDefault
      (or_else (get Scenario.whereId1 "where") (VObj [])) = Ok where_
    /\ Extension.events
         (Extension.forceDelete Scenario.datamodel Scenario.answering
            Scenario.keepSelect Scenario.keepResult
            Scenario.store0 "User" Scenario.whereId1)
       = Extension.Executed (Extension.lowerFirst "User") "deleteMany"
           (VObj [("where", where_)]) :: rest
    /\ (rest = [] \/ rest = [Extension.ResetDone "User"])
    /\ where_ = VObj [("id", VNum 1); ("deleted", VBool false)].
Proof.
  apply (forceDelete_issues_one_deleteMany Scenario.datamodel Scenario.answering
           Scenario.keepSelect Scenario.keepResult Scenario.store0 "User"
           Extension.builtinDefault VBool Scenario.whereId1);
    try reflexivity.
  discriminate.
Defined.

(** ** Point lookups *)

Section UniqueLookups.
Variable datamodel : list Dmmf.Model.

Lemma typeof_defined v :
  v <> VUndefined -> String.eqb (typeof v) "undefined" = false.
Proof. destruct v; simpl; try reflexivity. now intros []. Qed.

(** The first index key of a [where] that holds one is a genuine name. *)
Lemma uniqueIndexField_found params props k v :
  get (args params) "where" = VObj props ->
  assoc_get k props = Some v ->
  mem k (fields_of (uniqueIndexFieldsByModel datamodel) (model params)) = true ->
  mem "" (fields_of (uniqueIndexFieldsByModel datamodel) (model params)) = false ->
  truthy_string (uniqueIndexField datamodel params) = true.
Proof.
  intros Hw Hk Hmem Hempty. unfold uniqueIndexField. rewrite Hw.
  unfold or_else, keys. simpl.
  destruct (find _ (map fst props)) as [k'|] eqn:Hfind.
  - apply find_some in Hfind. destruct Hfind as [_ Hk'].
    simpl. apply negb_true_iff, String.eqb_neq. intros ->.
    rewrite Hk' in Hempty. discriminate.
  - exfalso. apply assoc_get_In in Hk. apply (in_map fst) in Hk.
    pose proof (find_none _ _ Hfind k Hk) as Hnone. simpl in Hnone.
    rewrite Hmem in Hnone. discriminate.
Qed.

Lemma shouldPass_compound params config props k v :
  get (args params) "where" = VObj props ->
  assoc_get k props = Some v -> v <> VUndefined ->
  mem k (fields_of (uniqueIndexFieldsByModel datamodel) (model params)) = true ->
  mem "" (fields_of (uniqueIndexFieldsByModel datamodel) (model params)) = false ->
  shouldPassFindUniqueParamsThrough datamodel params config
  = flag (allowCompoundUniqueIndexWhere config).
Proof.
  intros Hw Hk Hv Hmem Hempty. unfold shouldPassFindUniqueParamsThrough.
  rewrite (uniqueIndexField_found params props k v Hw Hk Hmem Hempty).
  rewrite Hw. simpl.
  assert (Hex :
    existsb
      (fun '(key, val) =>
         andb (orb (mem key (fields_of (uniqueFieldsByModel datamodel)
                               (model params)))
                   (mem key (fields_of (uniqueIndexFieldsByModel datamodel)
                               (model params))))
              (negb (String.eqb (typeof val) "undefined")))
      props = true).
  { apply existsb_exists. exists (k, v). split.
    - now apply assoc_get_In.
    - rewrite Hmem, (typeof_defined v Hv), orb_true_r. reflexivity. }
  rewrite Hex. reflexivity.
Qed.
End UniqueLookups.

(** C5, as stated, fails: with [allowCompoundUniqueIndexWhere] set, a
    [findUnique] keyed on a compound index is not rewritten to [findFirst];
    it is handed back as it came, kind and [where] untouched. *)
Lemma compound_lookup_passes_through_unchanged :
  let initial := Scenario.rootParams "User" "findUnique" Scenario.whereFullName in
  createFindUniqueParams Scenario.datamodel Scenario.allowingCompound initial
  = Ok {| params := initial; ctx := None |}
  /\ operation initial <> "findFirst"
  /\ get (get (args initial) "where") "deleted" = VUndefined.
Proof. repeat split. discriminate. Qed.

(** C5, amended.  For a [findUnique] or [findUniqueOrThrow] whose [where]
    holds a defined value under a compound-unique-index key of the model:
    without [allowCompoundUniqueIndexWhere] the rewrite throws the
    unique-index guard error; with it the operation is passed through
    unchanged (same kind, same [where]). *)
Theorem compound_index_lookup_guard
    (datamodel : list Dmmf.Model) (config : ModelConfig) (params : Params)
    (props : list (string * value)) (k : string) (v : value) :
  get (args params) "where" = VObj props ->
  assoc_get k props = Some v -> v <> VUndefined ->
  mem k (fields_of (uniqueIndexFieldsByModel datamodel) (model params)) = true ->
  mem "" (fields_of (uniqueIndexFieldsByModel datamodel) (model params)) = false ->
  (flag (allowCompoundUniqueIndexWhere config) = false ->
   exists message,
     createFindUniqueParams datamodel config params
     = Throw (UniqueIndexGuardError message)
     /\ createFindUniqueOrThrowParams datamodel config params
        = Throw (UniqueIndexGuardError message))
  /\ (flag (allowCompoundUniqueIndexWhere config) = true ->
      createFindUniqueParams datamodel config params
      = Ok {| params := params; ctx := None |}
      /\ createFindUniqueOrThrowParams datamodel config params
         = Ok {| params := params; ctx := None |}).
Proof.
  intros Hw Hk Hv Hmem Hempty.
  pose proof (shouldPass_compound datamodel params config props k v
                Hw Hk Hv Hmem Hempty) as Hpass.
  pose proof (uniqueIndexField_found datamodel params props k v
                Hw Hk Hmem Hempty) as Hfound.
  unfold createFindUniqueParams, createFindUniqueOrThrowParams.
  rewrite Hpass. split; intros Hflag; rewrite Hflag.
  - unfold validateFindUniqueParams. rewrite Hfound, Hflag. simpl.
    eexists. split; reflexivity.
  - split; reflexivity.
Qed.

Lemma compound_index_lookup_guard_witness :
  exists message,
    createFindUniqueParams Scenario.datamodel Extension.builtinDefault
      (Scenario.rootParams "User" "findUnique" Scenario.whereFullName)
    = Throw (UniqueIndexGuardError message)
    /\ createFindUniqueOrThrowParams Scenario.datamodel Extension.builtinDefault
         (Scenario.rootParams "User" "findUnique" Scenario.whereFullName)
       = Throw (UniqueIndexGuardError message).
Proof.
  refine (proj1 (compound_index_lookup_guard Scenario.datamodel
                   Extension.builtinDefault
                   (Scenario.rootParams "User" "findUnique" Scenario.whereFullName)
                   _ "firstName_lastName" _ eq_refl eq_refl _ eq_refl eq_refl)
            eq_refl).
  discriminate.
Defined.

(** ** Relation filters under [every] *)

(** C7, as stated, fails: the clause put beside the original condition does
    not say that the field marks the record as not deleted
    ([deleted: false]); it says the opposite, that the field differs from
    the not-deleted value ([deleted: { not: false }]). *)
Lemma every_clause_matches_deleted_rows :
  let initial :=
    Scenario.nestedParams "Comment" "where"
      (VObj [("content", VStr "spam")]) "comments" true (Some "every") in
  createWhereParams Extension.builtinDefault initial
  = Ok {| params :=
            with_args initial
              (VObj [("OR",
                      VArr [VObj [("deleted", VObj [("not", VBool false)])];
                            VObj [("content", VStr "spam")]])]);
          ctx := None |}
  /\ createWhereParams Extension.builtinDefault initial
     <> Ok {| params :=
                with_args initial
                  (VObj [("OR",
                          VArr [VObj [("deleted", VBool false)];
                                VObj [("content", VStr "spam")]])]);
              ctx := None |}.
Proof. split; [reflexivity|discriminate]. Qed.

(** C7, amended.  A nested [where] reached under the modifier [every] whose
    args do not constrain the configured field has its condition replaced by
    an OR of two clauses: the field is not the not-deleted value (the record
    is deleted), and the original condition. *)
Theorem every_where_excuses_deleted_rows
    (config : ModelConfig) (params : Params) (s : Scope) (cv : bool -> value) :
  scope params = Some s ->
  modifier s = Some "every" ->
  nullish (args params) = false ->
  truthy (get (args params) (field_key config)) = false ->
  createValue config = Some cv ->
  createWhereParams config params
  = Ok {| params :=
            with_args params
              (VObj [("OR",
                      VArr [VObj [(field_key config,
                                   VObj [("not", cv false)])];
                            args params])]);
          ctx := None |}.
Proof.
  intros Hs Hm Hn Ht Hcv. unfold createWhereParams, get_strict, call_createValue.
  rewrite Hs, Hm, Hn, Hcv. simpl. rewrite Ht. reflexivity.
Qed.

Lemma every_where_excuses_deleted_rows_witness :
  createWhereParams Extension.builtinDefault
    (Scenario.nestedParams "Comment" "where"
       (VObj [("content", VStr "spam")]) "comments" true (Some "every"))
  = Ok {| params :=
            with_args
              (Scenario.nestedParams "Comment" "where"
                 (VObj [("content", VStr "spam")]) "comments" true (Some "every"))
              (VObj [("OR",
                      VArr [VObj [(field_key Extension.builtinDefault,
                                   VObj [("not", VBool false)])];
                            VObj [("content", VStr "spam")]])]);
          ctx := None |}.
Proof.
  exact (every_where_excuses_deleted_rows Extension.builtinDefault
           (Scenario.nestedParams "Comment" "where"
              (VObj [("content", VStr "spam")]) "comments" true (Some "every"))
           _ VBool eq_refl eq_refl eq_refl eq_refl eq_refl).
Defined.

(** ** Include injection *)

Lemma getInclude_nestModels_empty config params :
  nestModels config = VObj [] ->
  getInclude config params
  = Ok (or_else (get (args params) "include") (VObj [])).
Proof. intros H. unfold getInclude. rewrite H. reflexivity. Qed.

Lemma isEmptyObject_spec v :
  nullish v = false ->
  isEmptyObject v = Ok match v with VObj [] => true | _ => false end.
Proof.
  intros H. unfold isEmptyObject. rewrite H.
  destruct v as [| | | | | |[|p props]|]; try discriminate H;
    try reflexivity; now rewrite andb_false_r.
Qed.

Lemma truthy_not_nullish v : truthy v = true -> nullish v = false.
Proof. destruct v; simpl; congruence. Qed.

Lemma get_own_props a k :
  k <> "length" -> get (VObj (own_props a)) k = get a k.
Proof.
  intros Hk. apply String.eqb_neq in Hk. unfold get. simpl.
  destruct (assoc_get k (own_props a)); [reflexivity|]. now rewrite Hk.
Qed.

(** With an empty [nestModels] a read keeps the caller's [include]. *)
Lemma read_keeps_include_when_nestModels_empty config params where_ :
  nestModels config = VObj [] ->
  exists include args',
    getInclude config params = Ok include
    /\ read_args (args params) where_ include = Ok args'
    /\ get args' "include" = get (args params) "include".
Proof.
  intros H. rewrite (getInclude_nestModels_empty _ _ H).
  set (inc := get (args params) "include").
  assert (Hbase :
    get (VObj (assoc_set (own_props (args params)) "where" where_)) "include"
    = inc).
  { rewrite get_set_other by discriminate. apply get_own_props. discriminate. }
  exists (or_else inc (VObj [])). unfold read_args, or_else.
  destruct (truthy inc) eqn:Ht.
  - rewrite (isEmptyObject_spec inc (truthy_not_nullish inc Ht)). simpl.
    eexists. split; [reflexivity|split; [reflexivity|]].
    destruct inc as [| | | | | |[|p props]|]; try (now rewrite get_set_same).
    exact Hbase.
  - simpl. eexists. split; [reflexivity|split; [reflexivity|]]. exact Hbase.
Qed.

(** C8: what the code does on [comment.findMany({ include: { user: true,
    post: true } })] after [withTrashedRelated({ User: true })].  The
    relation [post] matches no key of [nestModels], and it is gone from the
    [include] that is executed; when no relation matches at all (second
    part), the caller's [include] is executed whole. *)
Theorem include_drops_unmatched_relations :
  let initial :=
    Scenario.rootParams "Comment" "findMany" Scenario.includeUserPost in
  (exists st,
      Extension.withTrashedRelated Scenario.datamodel Scenario.store0 "Comment"
        (VObj [("User", VBool true)]) = Ok st
      /\ Extension.lookup st "Comment"
         = Some (Extension.set_nestModels (VObj [("User", VBool true)])
                   Extension.builtinDefault)
      /\ Extension.events
           (Extension.method Scenario.datamodel Scenario.answering
              Scenario.keepSelect Scenario.keepResult st "Comment" "findMany"
              Scenario.includeUserPost)
         = [Extension.Executed "comment" "findMany"
              (VObj [("include", VObj [("user", VObj [("where", VObj [])])]);
                     ("where", VObj [("deleted", VBool false)])]);
            Extension.ResetDone "Comment"])
  /\ getInclude
       (Extension.set_nestModels (VObj [("User", VBool true)])
          Extension.builtinDefault) initial
     = Ok (VObj [("user", VObj [("where", VObj [])])])
  /\ createFindManyParams
       (Extension.set_nestModels (VObj [("Tag", VBool true)])
          Extension.builtinDefault) initial
     = Ok {| params :=
               Scenario.rootParams "Comment" "findMany"
                 (VObj [("include",
                         VObj [("user", VBool true); ("post", VBool true)]);
                        ("where", VObj [("deleted", VBool false)])]);
             ctx := None |}.
Proof.
  split; [|split; reflexivity].
  eexists. split; [reflexivity|]. split; reflexivity.
Qed.

(** ** Reads in mode [except] *)

Lemma where_or_empty_unconstrained config params :
  truthy (get (get (args params) "where") (field_key config)) = false ->
  truthy (get (or_else (get (or_else (args params) (VObj [])) "where") (VObj []))
            (field_key config)) = false.
Proof.
  intros H. unfold or_else.
  destruct (truthy (args params)); simpl.
  - destruct (truthy (get (args params) "where")); [exact H|].
    unfold get. simpl. now destruct (String.eqb _ _).
  - unfold get. simpl. now destruct (String.eqb _ _).
Qed.

Lemma getWhere_except config params cv :
  (queryOption config = Some except \/ queryOption config = None) ->
  createValue config = Some cv ->
  truthy (get (get (args params) "where") (field_key config)) = false ->
  exists where_,
    getWhere config params = Ok where_
    /\ get where_ (field_key config) = cv false.
Proof.
  intros Hq Hcv Hw. apply (where_or_empty_unconstrained config params) in Hw.
  unfold getWhere, call_createValue. rewrite Hcv.
  destruct Hq as [-> | ->]; rewrite Hw; simpl;
    (eexists; split; [reflexivity|apply get_set_same]).
Qed.

Lemma forEach_total {A B : Type} (body : A -> B -> result A) :
  (forall acc x, exists acc', body acc x = Ok acc') ->
  forall l acc, exists r, forEach l body acc = Ok r.
Proof.
  intros Hbody l. induction l as [|x rest IH]; intros acc; simpl.
  - now exists acc.
  - destruct (Hbody acc x) as [acc' ->]. simpl. apply IH.
Qed.

Lemma getInclude_total config params cv :
  nullish (nestModels config) = false ->
  createValue config = Some cv ->
  exists include,
    getInclude config params = Ok include /\ nullish include = false.
Proof.
  intros Hn Hcv. unfold getInclude.
  rewrite (isEmptyObject_spec _ Hn). simpl.
  destruct (match nestModels config with VObj [] => true | _ => false end).
  - eexists. split; [reflexivity|]. unfold or_else.
    destruct (truthy (get (args params) "include")) eqn:Ht;
      [now apply truthy_not_nullish|reflexivity].
  - match goal with
    | |- context [forEach ?l ?body ?acc] =>
        assert (Hbody : forall a x, exists a', body a x = Ok a');
        [|destruct (forEach_total body Hbody l acc) as [r Hr];
          rewrite Hr; simpl; eauto]
    end.
    intros acc key. apply forEach_total. intros acc' m.
    destruct (includes _ _); [|eauto].
    destruct (truthy _); [eauto|].
    unfold call_createValue. rewrite Hcv. simpl. eauto.
Qed.

Lemma read_args_where a where_ include args' :
  read_args a where_ include = Ok args' -> get args' "where" = where_.
Proof.
  unfold read_args. destruct (isEmptyObject include) as [[|]|e]; simpl;
    intros [= <-].
  - apply get_set_same.
  - rewrite get_set_other by discriminate. apply get_set_same.
Qed.

(** The common shape of the three [find] rewrites. *)
Lemma find_shape_except config params cv op :
  (queryOption config = Some except \/ queryOption config = None) ->
  createValue config = Some cv ->
  truthy (get (get (args params) "where") (field_key config)) = false ->
  let rewrite :=
    Types.bind (getWhere config params) (fun where_ =>
    Types.bind (getInclude config params) (fun include =>
    Types.bind (read_args (args params) where_ include) (fun args =>
    just (with_operation_args params op args)))) in
  (forall r, rewrite = Ok r ->
             get (get (args (Types.params r)) "where") (field_key config)
             = cv false)
  /\ (nullish (nestModels config) = false -> exists r, rewrite = Ok r).
Proof.
  intros Hq Hcv Hw rewrite. subst rewrite.
  destruct (getWhere_except config params cv Hq Hcv Hw) as (where_ & -> & Hget).
  simpl. split.
  - intros r. destruct (getInclude config params) as [include|e]; simpl;
      [|discriminate].
    destruct (read_args (args params) where_ include) as [args'|e] eqn:Hra;
      simpl; [|discriminate].
    intros [= <-]. simpl. now rewrite (read_args_where _ _ _ _ Hra).
  - intros Hn.
    destruct (getInclude_total config params cv Hn Hcv) as (include & -> & Hni).
    simpl. unfold read_args. rewrite (isEmptyObject_spec _ Hni). simpl.
    eexists. reflexivity.
Qed.

(** The shape of [count], [aggregate] and [groupBy]. *)
Lemma where_only_shape_except config params cv (base : value) (op : string) :
  (queryOption config = Some except \/ queryOption config = None) ->
  createValue config = Some cv ->
  truthy (get (get (args params) "where") (field_key config)) = false ->
  exists r,
    Types.bind (getWhere config params) (fun where_ =>
      just (with_operation_args params op
              (VObj (assoc_set (own_props base) "where" where_)))) = Ok r
    /\ get (get (args (Types.params r)) "where") (field_key config) = cv false.
Proof.
  intros Hq Hcv Hw.
  destruct (getWhere_except config params cv Hq Hcv Hw) as (where_ & -> & Hget).
  simpl. eexists. split; [reflexivity|]. simpl. now rewrite get_set_same.
Qed.

(** C1, as stated, fails: a [findUnique] that is passed through is executed
    with the caller's [where], which says nothing about the configured
    field, although the model is in mode [except]. *)
Lemma passed_through_lookup_is_not_filtered :
  let initial := Scenario.rootParams "User" "findUnique" Scenario.whereFullName in
  let st :=
    {| Extension.default := Extension.builtinDefault;
       Extension.modelConfig :=
         [("User", Extension.Own Scenario.allowingCompound)] |} in
  queryOption Scenario.allowingCompound = Some except
  /\ truthy (get (get (args initial) "where")
               (field_key Scenario.allowingCompound)) = false
  /\ Extension.events
       (Extension.method Scenario.datamodel Scenario.answering
          Scenario.keepSelect Scenario.keepResult st "User" "findUnique"
          Scenario.whereFullName)
     = [Extension.Executed "user" "findUnique" Scenario.whereFullName;
        Extension.ResetDone "User"]
  /\ get (get Scenario.whereFullName "where")
         (field_key Scenario.allowingCompound)
     <> VBool false.
Proof. repeat (split; [reflexivity|]). discriminate. Qed.

(** C1, amended.  In mode [except] (the default), for a read operation whose
    caller-supplied [where] does not constrain the configured field:
    whenever the rewrite returns, and, for [findUnique] and
    [findUniqueOrThrow], the lookup is not passed through, the [where] of the
    rewritten operation holds [field = createValue(false)]; and the rewrite
    does return when [nestModels] is an object and, for the two point
    lookups, the [where] names no compound-index field.  A point lookup that
    is passed through keeps the caller's [where]. *)
Theorem reads_hide_deleted_rows
    (datamodel : list Dmmf.Model)
    (addDeletedToSelect : Params -> ModelConfig -> Params)
    (op : string) (rule : CreateParams)
    (config : ModelConfig) (params : Params) (cv : bool -> value) :
  In op readOperations ->
  assoc_get op (Extension.rules datamodel addDeletedToSelect) = Some rule ->
  (queryOption config = Some except \/ queryOption config = None) ->
  createValue config = Some cv ->
  truthy (get (get (args params) "where") (field_key config)) = false ->
  (op = "findUnique" \/ op = "findUniqueOrThrow" ->
   shouldPassFindUniqueParamsThrough datamodel params config = false) ->
  (forall r, rule config params = Ok r ->
             get (get (args (Types.params r)) "where") (field_key config)
             = cv false)
  /\ (nullish (nestModels config) = false ->
      (op = "findUnique" \/ op = "findUniqueOrThrow" ->
       truthy_string (uniqueIndexField datamodel params) = false) ->
      exists r, rule config params = Ok r).
Proof.
  intros Hin Hrule Hq Hcv Hw Hpass.
  pose proof (fun o => find_shape_except config params cv o Hq Hcv Hw) as Hfind.
  pose proof (fun b o => where_only_shape_except config params cv b o Hq Hcv Hw)
    as Honly.
  cbv zeta in Hfind.
  simpl in Hin.
  destruct Hin as [<-|[<-|[<-|[<-|[<-|[<-|[<-|[<-|[]]]]]]]]];
    simpl in Hrule; injection Hrule as <-.
  - destruct (Hfind "findFirst") as [H1 H2]. split; [exact H1|auto].
  - destruct (Hfind "findFirstOrThrow") as [H1 H2]. split; [exact H1|auto].
  - destruct (Hfind "findFirst") as [H1 H2].
    unfold createFindUniqueParams. rewrite (Hpass (or_introl eq_refl)).
    split.
    + intros r. destruct (validateFindUniqueParams _ _ _) as [[]|e]; simpl;
        [apply H1|discriminate].
    + intros Hn Hu. unfold validateFindUniqueParams.
      rewrite (Hu (or_introl eq_refl)). simpl. auto.
  - destruct (Hfind "findFirstOrThrow") as [H1 H2].
    unfold createFindUniqueOrThrowParams. rewrite (Hpass (or_intror eq_refl)).
    split.
    + intros r. destruct (validateFindUniqueParams _ _ _) as [[]|e]; simpl;
        [apply H1|discriminate].
    + intros Hn Hu. unfold validateFindUniqueParams.
      rewrite (Hu (or_intror eq_refl)). simpl. auto.
  - destruct (Hfind "findMany") as [H1 H2]. split; [exact H1|auto].
  - destruct (Honly (or_else (args params) (VObj [])) (operation params))
      as (r & Hr & Hget).
    split; [|intros _ _; exists r; exact Hr].
    intros r' Hr'. unfold createCountParams in Hr'.
    change (with_args params) with (with_operation_args params (operation params))
      in Hr'.
    rewrite Hr in Hr'. now injection Hr' as <-.
  - destruct (Honly (or_else (args params) (VObj [])) (operation params))
      as (r & Hr & Hget).
    split; [|intros _ _; exists r; exact Hr].
    intros r' Hr'. unfold createAggregateParams in Hr'.
    change (with_args params) with (with_operation_args params (operation params))
      in Hr'.
    rewrite Hr in Hr'. now injection Hr' as <-.
  - destruct (Honly (args params) "groupBy") as (r & Hr & Hget).
    split; [|intros _ _; exists r; exact Hr].
    intros r' Hr'. unfold createGroupByParams in Hr'.
    rewrite Hr in Hr'. now injection Hr' as <-.
Qed.

Lemma reads_hide_deleted_rows_witness :
  (forall r,
      createFindUniqueParams Scenario.datamodel Extension.builtinDefault
        (Scenario.rootParams "User" "findUnique" Scenario.whereId1) = Ok r ->
      get (get (args (Types.params r)) "where") "deleted" = VBool false)
  /\ exists r,
      createFindUniqueParams Scenario.datamodel Extension.builtinDefault
        (Scenario.rootParams "User" "findUnique" Scenario.whereId1) = Ok r.
Proof.
  destruct (reads_hide_deleted_rows Scenario.datamodel Scenario.keepSelect
              "findUnique" (createFindUniqueParams Scenario.datamodel)
              Extension.builtinDefault
              (Scenario.rootParams "User" "findUnique" Scenario.whereId1) VBool)
    as [H1 H2]; simpl; auto.
Defined.

(** ** Construction *)

Section ModelConfigTable.
Variable models_ : list (string * Extension.ModelEntry).

Let step (modelConfig : list (string * Extension.ConfigRef))
    (modelName : string) :=
  match assoc_get modelName models_ with
  | Some (Extension.Flag true) =>
      assoc_set modelConfig modelName Extension.SharedDefault
  | Some (Extension.Custom config) =>
      assoc_set modelConfig modelName (Extension.Own config)
  | Some (Extension.Flag false) | None => modelConfig
  end.

Lemma modelConfig_step_other acc modelName m :
  m <> modelName -> assoc_get m (step acc modelName) = assoc_get m acc.
Proof.
  intros Hne. unfold step.
  destruct (assoc_get modelName models_) as [[[|]|config]|];
    try reflexivity; now apply assoc_get_set_other.
Qed.

Lemma modelConfig_custom_kept modelNames m config :
  assoc_get m models_ = Some (Extension.Custom config) ->
  forall acc,
    (In m modelNames \/ assoc_get m acc = Some (Extension.Own config)) ->
    assoc_get m (fold_left step modelNames acc)
    = Some (Extension.Own config).
Proof.
  intros Hm. induction modelNames as [|modelName rest IH]; intros acc Hin.
  - simpl. destruct Hin as [[]|H]. exact H.
  - simpl. apply IH.
    destruct (String.eqb_spec m modelName) as [<-|Hne].
    + right. unfold step. rewrite Hm. apply assoc_get_set_same.
    + destruct Hin as [[<-|Hin]|Hacc]; [now contradiction Hne|now left|].
      right. now rewrite modelConfig_step_other.
Qed.
End ModelConfigTable.

(** C10. Construction checks the default config only: it throws exactly
    when the default config (the built-in one when none is given) has no
    [field] (absent or empty) or no [createValue]; otherwise it succeeds,
    whatever the per-model overrides hold, and an override object is stored
    as it was given. *)
Theorem construction_validates_default_only (cfg : Extension.Config) :
  let d := match Extension.defaultConfig cfg with
           | Some d => d
           | None => Extension.builtinDefault
           end in
  (truthy_string (field d) = false ->
   Extension.createSoftDeleteExtension cfg
   = Throw (ConfigError
              "prisma-extension-soft-delete: defaultConfig.field is required"))
  /\ (truthy_string (field d) = true -> createValue d = None ->
      Extension.createSoftDeleteExtension cfg
      = Throw (ConfigError
                 "prisma-extension-soft-delete: defaultConfig.createValue is required"))
  /\ (truthy_string (field d) = true -> createValue d <> None ->
      exists st,
        Extension.createSoftDeleteExtension cfg = Ok st
        /\ Extension.default st = d
        /\ forall m config,
            assoc_get m (Extension.models cfg) = Some (Extension.Custom config) ->
            Extension.lookup st m = Some config).
Proof.
  intros d. unfold Extension.createSoftDeleteExtension. fold d.
  split; [|split].
  - intros ->. reflexivity.
  - intros -> ->. reflexivity.
  - intros -> Hcv. destruct (createValue d) as [f|]; [|now contradiction Hcv].
    simpl. eexists. split; [reflexivity|]. split; [reflexivity|].
    intros m config Hm. unfold Extension.lookup. simpl.
    rewrite (modelConfig_custom_kept (Extension.models cfg)
               (map fst (Extension.models cfg)) m config Hm).
    + reflexivity.
    + left. apply assoc_get_In in Hm. now apply (in_map fst) in Hm.
Qed.

Lemma construction_validates_default_only_witness :
  exists st,
    Extension.createSoftDeleteExtension
      {| Extension.models := [("Post", Extension.Custom Scenario.bareOverride);
                              ("Comment", Extension.Flag true)];
         Extension.defaultConfig := None |} = Ok st
    /\ Extension.default st = Extension.builtinDefault
    /\ forall m config,
        assoc_get m [("Post", Extension.Custom Scenario.bareOverride);
                     ("Comment", Extension.Flag true)]
        = Some (Extension.Custom config) ->
        Extension.lookup st m = Some config.
Proof.
  apply (proj2 (proj2 (construction_validates_default_only
                         {| Extension.models :=
                              [("Post", Extension.Custom Scenario.bareOverride);
                               ("Comment", Extension.Flag true)];
                            Extension.defaultConfig := None |})));
    [reflexivity|discriminate].
Defined.

(** ** Include injection with one configured key *)

Section SingleKey.
Variable config : ModelConfig.
Variable params : Params.
Variable cv : bool -> value.
Variable key : string.
Variable keep : value.
Hypothesis Hnest : nestModels config = VObj [(key, keep)].
Hypothesis Hcv : createValue config = Some cv.

(** The entry the loop writes for a relation that matches [key]. *)
Let entry_for (model : string) : value :=
  let where_ :=
    or_else (get (get (get (args params) "include") model) "where") (VObj []) in
  VObj [("where",
         if truthy keep then where_
         else VObj (assoc_set (own_props where_) (field_key config) (cv false)))].

Let matches (model : string) : bool :=
  includes (toLowerCase model) (toLowerCase key).

Let body (include : list (string * value)) (model : string)
  : result (list (string * value)) :=
  let where_ :=
    or_else (get (get (get (args params) "include") model) "where") (VObj []) in
  if includes (toLowerCase model) (toLowerCase key) then
    if truthy (get (nestModels config) key) then
      Ok (assoc_set include model (VObj [("where", where_)]))
    else
      Types.bind (call_createValue config false) (fun v =>
        Ok (assoc_set include model
              (VObj [("where",
                      VObj (assoc_set (own_props where_) (field_key config) v))])))
  else Ok include.

Lemma include_body_step include model :
  body include model
  = Ok (if matches model then assoc_set include model (entry_for model)
        else include).
Proof.
  unfold body, matches, entry_for, call_createValue.
  rewrite Hnest, Hcv, get_obj. simpl. rewrite String.eqb_refl.
  destruct (includes _ _); [|reflexivity].
  destruct (truthy keep); reflexivity.
Qed.

Lemma include_loop models_ :
  forall acc, exists r,
    forEach models_ body acc = Ok r
    /\ forall m,
        assoc_get m r
        = if andb (mem m models_) (matches m) then Some (entry_for m)
          else assoc_get m acc.
Proof.
  induction models_ as [|x rest IH]; intros acc; simpl.
  - exists acc. split; [reflexivity|]. reflexivity.
  - rewrite include_body_step. simpl.
    destruct (IH (if matches x then assoc_set acc x (entry_for x) else acc))
      as (r & Hr & Hget).
    exists r. split; [exact Hr|]. intros m. rewrite Hget.
    unfold mem. simpl. fold (mem m rest).
    destruct (andb (mem m rest) (matches m)) eqn:Hrest.
    + apply andb_true_iff in Hrest. destruct Hrest as [-> ->].
      now rewrite orb_true_r.
    + destruct (String.eqb_spec m x) as [->|Hne]; simpl.
      * destruct (matches x) eqn:Hx.
        -- now rewrite assoc_get_set_same.
        -- now rewrite andb_false_r in *.
      * rewrite Hrest.
        destruct (matches x); [now apply assoc_get_set_other|reflexivity].
Qed.

(** The include computed for a one-key [nestModels]: exactly the matching
    relations, each reduced to its [where]. *)
Lemma getInclude_single_key :
  exists r,
    getInclude config params = Ok (VObj r)
    /\ forall m,
        assoc_get m r
        = if andb (mem m (keys (or_else (get (args params) "include") (VObj []))))
                  (matches m)
          then Some (entry_for m) else None.
Proof.
  assert (He : isEmptyObject (nestModels config) = Ok false)
    by (rewrite Hnest; reflexivity).
  assert (Hk : keys (or_else (nestModels config) (VObj [])) = [key])
    by (rewrite Hnest; reflexivity).
  destruct (include_loop
              (keys (or_else (get (args params) "include") (VObj []))) [])
    as (r & Hr & Hget).
  exists r. split; [|exact Hget].
  unfold getInclude. rewrite He, Hk. cbn [Types.bind forEach].
  change (forEach (keys (or_else (get (args params) "include") (VObj []))) body [])
    with (forEach (keys (or_else (get (args params) "include") (VObj [])))
            (fun include model => body include model) []) in Hr.
  unfold body in Hr. rewrite Hr. reflexivity.
Qed.

Lemma getWhere_total : exists where_, getWhere config params = Ok where_.
Proof.
  unfold getWhere, call_createValue. rewrite Hcv.
  destruct (queryOption config) as [[| |]|]; simpl;
    try (destruct (truthy (get _ (field_key config))); simpl);
    eexists; reflexivity.
Qed.

(** Part of C8 that holds: a relation that matches the key gets the
    deleted-rows filter in its [where], unless the key's value is truthy.
    And the part that does not: once one relation matches, a relation that
    matches no key is absent from the executed [include]. *)
Lemma findMany_include_single_key props m1 e1 m2 :
  get (args params) "include" = VObj props ->
  assoc_get m1 props = Some e1 ->
  matches m1 = true ->
  matches m2 = false ->
  exists r,
    createFindManyParams config params = Ok r
    /\ get (get (args (Types.params r)) "include") m1
       = VObj [("where",
                if truthy keep then or_else (get e1 "where") (VObj [])
                else VObj (assoc_set (own_props (or_else (get e1 "where") (VObj [])))
                             (field_key config) (cv false)))]
    /\ get (get (args (Types.params r)) "include") m2 = VUndefined.
Proof.
  intros Hinc Hm1 Hmatch1 Hmatch2.
  destruct getWhere_total as [where_ Hwhere].
  destruct getInclude_single_key as (r & Hr & Hget).
  assert (Hin1 : mem m1 (keys (or_else (get (args params) "include") (VObj [])))
                 = true).
  { rewrite Hinc. unfold or_else, keys, mem. simpl.
    apply existsb_exists. exists m1. split; [|apply String.eqb_refl].
    apply assoc_get_In in Hm1. now apply (in_map fst) in Hm1. }
  pose proof (Hget m1) as H1. rewrite Hin1, Hmatch1 in H1. simpl in H1.
  pose proof (Hget m2) as H2. rewrite Hmatch2, andb_false_r in H2.
  unfold createFindManyParams. rewrite Hwhere, Hr. cbn [Types.bind].
  unfold read_args. rewrite isEmptyObject_spec by reflexivity.
  destruct r as [|p r']; [discriminate H1|]. cbn [Types.bind].
  eexists. split; [reflexivity|]. cbn [Types.params args with_operation_args].
  rewrite get_set_same.
  rewrite !get_obj, H1, H2. split; [|reflexivity].
  unfold entry_for. rewrite Hinc, get_obj, Hm1. reflexivity.
Qed.
End SingleKey.

(** ** The scenarios of the test suite and of the specification *)

(** [{ field: "deletedAt", createValue: () => deletedAt }], with the date at
    time 0 (test "allows setting model specific config values"). *)
Example nested_delete_of_the_test_suite :
  createDeleteParams
    {| field := Some "deletedAt"; createValue := Some (fun _ => VDate 0);
       allowToOneUpdates := None; allowCompoundUniqueIndexWhere := None;
       queryOption := None; nestModels := VUndefined; forceDelete := None |}
    (Scenario.nestedParams "Post" "delete" (VObj [("id", VNum 1)])
       "posts" true None)
  = Ok {| params :=
            Scenario.nestedParams "Post" "update"
              (VObj [("where", VObj [("id", VNum 1); ("deletedAt", VDate 0)]);
                     ("data", VObj [("deletedAt", VDate 0)])])
              "posts" true None;
          ctx := None |}.
Proof. reflexivity. Qed.

(** The nested [updateMany] of the same test, under the built-in default. *)
Example nested_updateMany_of_the_test_suite :
  createUpdateManyParams Extension.builtinDefault
    (Scenario.nestedParams "Comment" "updateMany"
       (VObj [("where", VObj [("content", VStr "a")]);
              ("data", VObj [("content", VStr "b")])])
       "comments" true None)
  = Ok {| params :=
            Scenario.nestedParams "Comment" "updateMany"
              (VObj [("where", VObj [("content", VStr "a");
                                     ("deleted", VBool false)]);
                     ("data", VObj [("content", VStr "b")])])
              "comments" true None;
          ctx := None |}.
Proof. reflexivity. Qed.

(** A model configured with [false] has no config: the call goes to the
    client as it is (test "does not soft delete models where config is
    passed as false"). *)
Example excluded_model_passes_through :
  exists st,
    Extension.createSoftDeleteExtension
      {| Extension.models := [("User", Extension.Flag false)];
         Extension.defaultConfig := None |} = Ok st
    /\ Extension.lookup st "User" = None
    /\ Extension.events
         (Extension.method Scenario.datamodel Scenario.answering
            Scenario.keepSelect Scenario.keepResult st "User" "delete"
            Scenario.whereId1)
       = [Extension.Executed "user" "delete" Scenario.whereId1].
Proof. eexists. repeat split. Qed.

(** The two tests on a default config without [field] or [createValue]. *)
Example default_without_field_throws :
  Extension.createSoftDeleteExtension
    {| Extension.models := [("Post", Extension.Flag true)];
       Extension.defaultConfig :=
         Some {| field := None; createValue := Some (fun _ => VDate 0);
                 allowToOneUpdates := None;
                 allowCompoundUniqueIndexWhere := None; queryOption := None;
                 nestModels := VUndefined; forceDelete := None |} |}
  = Throw (ConfigError
             "prisma-extension-soft-delete: defaultConfig.field is required").
Proof. reflexivity. Qed.

Example default_without_createValue_throws :
  Extension.createSoftDeleteExtension
    {| Extension.models := [("Post", Extension.Flag true)];
       Extension.defaultConfig :=
         Some {| field := Some "deletedAt"; createValue := None;
                 allowToOneUpdates := None;
                 allowCompoundUniqueIndexWhere := None; queryOption := None;
                 nestModels := VUndefined; forceDelete := None |} |}
  = Throw (ConfigError
             "prisma-extension-soft-delete: defaultConfig.createValue is required").
Proof. reflexivity. Qed.

(** Specification, section 8: [deleteMany({ where: { status: "x" } })]. *)
Example deleteMany_of_the_specification :
  createDeleteManyParams Extension.builtinDefault
    (Scenario.rootParams "Post" "deleteMany"
       (VObj [("where", VObj [("status", VStr "x")])]))
  = Ok {| params :=
            Scenario.rootParams "Post" "updateMany"
              (VObj [("where", VObj [("status", VStr "x");
                                     ("deleted", VBool false)]);
                     ("data", VObj [("deleted", VBool true)])]);
          ctx := None |}.
Proof. reflexivity. Qed.

(** Specification, section 8: [author: { delete: true }] through a to-one
    relation becomes an [update] that carries the sentinel, which the
    [update] rule then lets through and strips. *)
Example toOne_delete_shorthand_of_the_specification :
  createDeleteParams Extension.builtinDefault
    (Scenario.nestedParams "User" "delete" (VBool true) "author" false None)
  = Ok {| params :=
            Scenario.nestedParams "User" "update"
              (VObj [("__passUpdateThrough", VBool true);
                     ("deleted", VBool true)])
              "author" false None;
          ctx := None |}
  /\ createUpdateParams Extension.builtinDefault
       (Scenario.nestedParams "User" "update"
          (VObj [("__passUpdateThrough", VBool true); ("deleted", VBool true)])
          "author" false None)
     = Ok {| params :=
               Scenario.nestedParams "User" "update"
                 (VObj [("deleted", VBool true)]) "author" false None;
             ctx := None |}.
Proof. split; reflexivity. Qed.

(** [createSoftDeleteExtension({ models: { User: true, Post: true,
    Comment: true } })] builds [Scenario.store0], in which the three models
    point to one config object: [user.withTrashed()] is seen by [Post]. *)
Example default_config_is_shared :
  Extension.createSoftDeleteExtension Scenario.allDefault = Ok Scenario.store0
  /\ exists st,
      Extension.withTrashed Scenario.store0 "User" = Ok st
      /\ option_map queryOption (Extension.lookup st "Post") = Some (Some all).
Proof. split; [reflexivity|]. eexists. split; reflexivity. Qed.

(** The relation-safety message, as the source interpolates it. *)
Example relation_safety_message :
  createUpdateParams Extension.builtinDefault
    (Scenario.nestedParams "User" "update" (VObj []) "author" false None)
  = Throw (RelationSafetyError
      ("prisma-extension-soft-delete: update of model " ++ dq ++ "User" ++ dq
       ++ " through " ++ dq ++ "Post.author" ++ dq
       ++ " found. Updates of soft deleted models through a toOne relation is not supported as it is possible to update a soft deleted record.")).
Proof. reflexivity. Qed.

(** * Further properties of the rewrite rules *)

(** ** The two [where] transforms *)

Lemma truthy_get_truthy v k : truthy (get v k) = true -> truthy v = true.
Proof.
  destruct v as [| |b|n|s|t|props|elems]; try reflexivity;
    unfold get; simpl; try (destruct (String.eqb k "length"); discriminate).
  destruct s; [|reflexivity]. simpl.
  destruct (String.eqb k "length"); discriminate.
Qed.

Lemma falsy_get v k : truthy v = false -> k <> "length" -> get v k = VUndefined.
Proof.
  intros Hv Hk. apply String.eqb_neq in Hk.
  destruct v as [| |b|n|s|t|props|elems]; try discriminate Hv;
    unfold get; simpl; rewrite ?Hk; try reflexivity.
  destruct s; [simpl; rewrite ?Hk; reflexivity|discriminate Hv].
Qed.

(** The caller's [where] as [getWhere] reads it, against [args.where]. *)
Lemma caller_where_get params k :
  k <> "length" ->
  get (or_else (get (or_else (args params) (VObj [])) "where") (VObj [])) k
  = get (get (args params) "where") k.
Proof.
  intros Hk. unfold or_else.
  destruct (truthy (args params)) eqn:Ha.
  - destruct (truthy (get (args params) "where")) eqn:Hw; [reflexivity|].
    rewrite (falsy_get _ k Hw Hk). unfold get. simpl.
    apply String.eqb_neq in Hk. now rewrite Hk.
  - rewrite (falsy_get (args params) "where" Ha) by discriminate.
    reflexivity.
Qed.

Lemma caller_where_truthy params k :
  truthy (get (get (args params) "where") k) = true ->
  or_else (get (or_else (args params) (VObj [])) "where") (VObj [])
  = get (args params) "where".
Proof.
  intros H. pose proof (truthy_get_truthy _ _ H) as Hw.
  pose proof (truthy_get_truthy _ _ Hw) as Ha.
  unfold or_else. now rewrite Ha, Hw.
Qed.

(** X1. The visibility [where] of the reads.  Every key other than the
    configured field keeps the caller's value.  The field itself: in mode
    [all] the caller's [where] is returned as it is (or [{}] when there is
    none); in mode [only] the field is [{ not: createValue(false) }] whatever
    the caller wrote; in mode [except] a truthy constraint of the caller is
    kept and anything else becomes [createValue(false)]. *)
Theorem getWhere_by_mode
    (config : ModelConfig) (params : Params) (cv : bool -> value) :
  createValue config = Some cv ->
  exists where_,
    getWhere config params = Ok where_
    /\ (forall k, k <> field_key config -> k <> "length" ->
                  get where_ k = get (get (args params) "where") k)
    /\ match queryOption config with
       | Some all =>
           where_ = or_else (get (or_else (args params) (VObj [])) "where")
                      (VObj [])
       | Some only =>
           get where_ (field_key config) = VObj [("not", cv false)]
       | _ =>
           get where_ (field_key config)
           = if truthy (get (get (args params) "where") (field_key config))
             then get (get (args params) "where") (field_key config)
             else cv false
       end.
Proof.
  intros Hcv. unfold getWhere, call_createValue. rewrite Hcv.
  remember (or_else (get (or_else (args params) (VObj [])) "where") (VObj []))
    as w eqn:Ew.
  assert (Hframe : forall v k,
             k <> field_key config -> k <> "length" ->
             get (VObj (assoc_set (own_props w) (field_key config) v)) k
             = get (get (args params) "where") k).
  { intros v k Hk Hl. rewrite get_set_other by exact Hk.
    rewrite get_own_props by exact Hl. subst w. now apply caller_where_get. }
  assert (Hexcept :
    exists where_,
      Types.bind
        (if truthy (get w (field_key config))
         then Ok (get w (field_key config)) else Ok (cv false))
        (fun v => Ok (VObj (assoc_set (own_props w) (field_key config) v)))
      = Ok where_
      /\ (forall k, k <> field_key config -> k <> "length" ->
                    get where_ k = get (get (args params) "where") k)
      /\ get where_ (field_key config)
         = if truthy (get (get (args params) "where") (field_key config))
           then get (get (args params) "where") (field_key config)
           else cv false).
  { destruct (truthy (get (get (args params) "where") (field_key config)))
      eqn:Hc.
    - assert (Hw : w = get (args params) "where")
        by (subst w; now apply caller_where_truthy with (k := field_key config)).
      assert (Ht : truthy (get w (field_key config)) = true)
        by (rewrite Hw; exact Hc).
      rewrite Ht. simpl. eexists. split; [reflexivity|].
      split; [apply Hframe|]. rewrite get_set_same. now rewrite Hw.
    - assert (Ht : truthy (get w (field_key config)) = false)
        by (subst w; now apply where_or_empty_unconstrained).
      rewrite Ht. simpl. eexists. split; [reflexivity|].
      split; [apply Hframe|apply get_set_same]. }
  destruct (queryOption config) as [[| |]|]; simpl; try exact Hexcept.
  - exists w. split; [reflexivity|]. split; [|reflexivity].
    intros k _ Hl. subst w. now apply caller_where_get.
  - eexists. split; [reflexivity|]. split; [apply Hframe|apply get_set_same].
Qed.

Lemma getWhere_by_mode_witness :
  exists where_,
    getWhere Extension.builtinDefault
      (Scenario.rootParams "User" "findMany"
         (VObj [("where", VObj [("id", VNum 1); ("deleted", VBool true)])]))
    = Ok where_
    /\ (forall k, k <> "deleted" -> k <> "length" ->
                  get where_ k
                  = get (VObj [("id", VNum 1); ("deleted", VBool true)]) k)
    /\ get where_ "deleted" = VBool true.
Proof.
  exact (getWhere_by_mode Extension.builtinDefault
           (Scenario.rootParams "User" "findMany"
              (VObj [("where", VObj [("id", VNum 1); ("deleted", VBool true)])]))
           VBool eq_refl).
Defined.

(** X2. The new-where transform of the delete rules.  Unlike the visibility
    [where], it never defers to the caller: in mode [except] the field is
    [createValue(false)] and in mode [only] it is
    [{ not: createValue(false) }] even when the caller constrained the field;
    in mode [all] the result is a copy of the caller's [where].  Every other
    key keeps its value. *)
Theorem getNewWhere_by_mode
    (config : ModelConfig) (w : value) (cv : bool -> value) :
  createValue config = Some cv ->
  exists where_,
    getNewWhere config w = Ok where_
    /\ (forall k, k <> field_key config -> k <> "length" ->
                  get where_ k = get w k)
    /\ match queryOption config with
       | Some all => where_ = VObj (own_props w)
       | Some only => get where_ (field_key config) = VObj [("not", cv false)]
       | _ => get where_ (field_key config) = cv false
       end.
Proof.
  intros Hcv. unfold getNewWhere, call_createValue. rewrite Hcv.
  assert (Hframe : forall v k,
             k <> field_key config -> k <> "length" ->
             get (VObj (assoc_set (own_props w) (field_key config) v)) k
             = get w k).
  { intros v k Hk Hl. rewrite get_set_other by exact Hk.
    now apply get_own_props. }
  destruct (queryOption config) as [[| |]|]; simpl;
    (eexists; split; [reflexivity|]); split;
    try apply Hframe; try apply get_set_same; try reflexivity.
  intros k _ Hl. now apply get_own_props.
Qed.

Lemma getNewWhere_by_mode_witness :
  exists where_,
    getNewWhere Extension.builtinDefault
      (VObj [("id", VNum 1); ("deleted", VBool true)]) = Ok where_
    /\ (forall k, k <> "deleted" -> k <> "length" ->
                  get where_ k
                  = get (VObj [("id", VNum 1); ("deleted", VBool true)]) k)
    /\ get where_ "deleted" = VBool false.
Proof.
  exact (getNewWhere_by_mode Extension.builtinDefault
           (VObj [("id", VNum 1); ("deleted", VBool true)]) VBool eq_refl).
Defined.

(** ** What a read rewrite touches *)

Lemma read_args_frame a where_ include args' :
  read_args a where_ include = Ok args' ->
  forall k, k <> "where" -> k <> "include" -> k <> "length" ->
            get args' k = get a k.
Proof.
  unfold read_args. destruct (isEmptyObject include) as [[|]|e]; simpl;
    intros [= <-] k Hw Hi Hl.
  - rewrite get_set_other by exact Hw. now apply get_own_props.
  - rewrite !get_set_other by assumption. now apply get_own_props.
Qed.

Lemma find_shape_frame config params op r :
  Types.bind (getWhere config params) (fun where_ =>
  Types.bind (getInclude config params) (fun include =>
  Types.bind (read_args (args params) where_ include) (fun args =>
  just (with_operation_args params op args)))) = Ok r ->
  getWhere config params = Ok (get (args (Types.params r)) "where")
  /\ (forall k, k <> "where" -> k <> "include" -> k <> "length" ->
                get (args (Types.params r)) k = get (args params) k)
  /\ model (Types.params r) = model params
  /\ scope (Types.params r) = scope params
  /\ operation (Types.params r) = op
  /\ ctx r = None.
Proof.
  destruct (getWhere config params) as [where_|e]; simpl; [|discriminate].
  destruct (getInclude config params) as [include|e]; simpl; [|discriminate].
  destruct (read_args (args params) where_ include) as [args'|e] eqn:Hra;
    simpl; [|discriminate].
  intros [= <-]. simpl. rewrite (read_args_where _ _ _ _ Hra).
  repeat split; try reflexivity. now apply (read_args_frame _ _ _ _ Hra).
Qed.

Lemma where_only_shape_frame config params (base : value) op r :
  (forall k, k <> "length" -> get base k = get (args params) k) ->
  Types.bind (getWhere config params) (fun where_ =>
    just (with_operation_args params op
            (VObj (assoc_set (own_props base) "where" where_)))) = Ok r ->
  getWhere config params = Ok (get (args (Types.params r)) "where")
  /\ (forall k, k <> "where" -> k <> "include" -> k <> "length" ->
                get (args (Types.params r)) k = get (args params) k)
  /\ model (Types.params r) = model params
  /\ scope (Types.params r) = scope params
  /\ operation (Types.params r) = op
  /\ ctx r = None.
Proof.
  intros Hbase.
  destruct (getWhere config params) as [where_|e]; simpl; [|discriminate].
  intros [= <-]. simpl. rewrite get_set_same.
  repeat split; try reflexivity. intros k Hw _ Hl.
  rewrite get_set_other by exact Hw. rewrite get_own_props by exact Hl.
  now apply Hbase.
Qed.

Lemma args_or_empty_get params k :
  k <> "length" ->
  get (or_else (args params) (VObj [])) k = get (args params) k.
Proof.
  intros Hk. unfold or_else. destruct (truthy (args params)) eqn:Ha;
    [reflexivity|].
  rewrite (falsy_get _ k Ha Hk). unfold get. simpl.
  apply String.eqb_neq in Hk. now rewrite Hk.
Qed.

(** X3. A read rewrite that is not a pass-through changes three things and
    nothing else: [args.where] becomes the visibility [where] of [getWhere],
    [args.include] may be replaced, and the kind becomes [readKind].  Every
    other key of the args (select, orderBy, take, ...) keeps its value, the
    model and the scope are kept, and no context is emitted. *)
Theorem read_rewrite_frame
    (datamodel : list Dmmf.Model)
    (addDeletedToSelect : Params -> ModelConfig -> Params)
    (op : string) (rule : CreateParams)
    (config : ModelConfig) (params : Params) (r : CreateParamsReturn) :
  In op readOperations ->
  assoc_get op (Extension.rules datamodel addDeletedToSelect) = Some rule ->
  (op = "findUnique" \/ op = "findUniqueOrThrow" ->
   shouldPassFindUniqueParamsThrough datamodel params config = false) ->
  rule config params = Ok r ->
  getWhere config params = Ok (get (args (Types.params r)) "where")
  /\ (forall k, k <> "where" -> k <> "include" -> k <> "length" ->
                get (args (Types.params r)) k = get (args params) k)
  /\ model (Types.params r) = model params
  /\ scope (Types.params r) = scope params
  /\ operation (Types.params r) = readKind op (operation params)
  /\ ctx r = None.
Proof.
  intros Hin Hrule Hpass Hr. simpl in Hin.
  destruct Hin as [<-|[<-|[<-|[<-|[<-|[<-|[<-|[<-|[]]]]]]]]];
    simpl in Hrule; injection Hrule as <-.
  - exact (find_shape_frame config params "findFirst" r Hr).
  - exact (find_shape_frame config params "findFirstOrThrow" r Hr).
  - unfold createFindUniqueParams in Hr.
    rewrite (Hpass (or_introl eq_refl)) in Hr.
    destruct (validateFindUniqueParams _ _ _) as [[]|e]; simpl in Hr;
      [|discriminate].
    exact (find_shape_frame config params "findFirst" r Hr).
  - unfold createFindUniqueOrThrowParams in Hr.
    rewrite (Hpass (or_intror eq_refl)) in Hr.
    destruct (validateFindUniqueParams _ _ _) as [[]|e]; simpl in Hr;
      [|discriminate].
    exact (find_shape_frame config params "findFirstOrThrow" r Hr).
  - exact (find_shape_frame config params "findMany" r Hr).
  - apply (where_only_shape_frame config params
             (or_else (args params) (VObj [])) (operation params) r);
      [intros k Hk; now apply args_or_empty_get|exact Hr].
  - apply (where_only_shape_frame config params
             (or_else (args params) (VObj [])) (operation params) r);
      [intros k Hk; now apply args_or_empty_get|exact Hr].
  - apply (where_only_shape_frame config params (args params) "groupBy" r);
      [reflexivity|exact Hr].
Qed.

Lemma read_rewrite_frame_witness :
  let initial :=
    Scenario.rootParams "User" "findUnique"
      (VObj [("where", VObj [("id", VNum 1)]);
             ("select", VObj [("email", VBool true)])]) in
  let r :=
    {| params :=
         Scenario.rootParams "User" "findFirst"
           (VObj [("where", VObj [("id", VNum 1); ("deleted", VBool false)]);
                  ("select", VObj [("email", VBool true)])]);
       ctx := None |} in
  getWhere Extension.builtinDefault initial
  = Ok (get (args (Types.params r)) "where")
  /\ (forall k, k <> "where" -> k <> "include" -> k <> "length" ->
                get (args (Types.params r)) k = get (args initial) k)
  /\ model (Types.params r) = model initial
  /\ scope (Types.params r) = scope initial
  /\ operation (Types.params r) = readKind "findUnique" (operation initial)
  /\ ctx r = None.
Proof.
  apply (read_rewrite_frame Scenario.datamodel Scenario.keepSelect
           "findUnique" (createFindUniqueParams Scenario.datamodel)
           Extension.builtinDefault);
    [simpl; auto|reflexivity|reflexivity|reflexivity].
Defined.

(** ** The metadata index *)

Section Index.
Context {A B : Type}.
Variable name : A -> string.
Variable f : A -> B.

Let build (l : list A) (acc : list (string * B)) : list (string * B) :=
  fold_left (fun acc m => assoc_set acc (name m) (f m)) l acc.

(** Filling a table by name: the last entry of a name is the one read back. *)
Lemma index_lookup l n :
  forall acc,
    assoc_get n (build l acc)
    = match find (fun m => String.eqb (name m) n) (rev l) with
      | Some m => Some (f m)
      | None => assoc_get n acc
      end.
Proof.
  induction l as [|x l IH] using rev_ind; intros acc; [reflexivity|].
  unfold build. rewrite fold_left_app, rev_app_distr. simpl.
  destruct (String.eqb_spec (name x) n) as [<-|Hne].
  - apply assoc_get_set_same.
  - rewrite assoc_get_set_other by (intros E; now apply Hne).
    apply IH.
Qed.

Lemma find_by_unique_name l d :
  NoDup (map name l) -> In d l ->
  find (fun m => String.eqb (name m) (name d)) l = Some d.
Proof.
  induction l as [|x l IH]; intros Hnd Hin; [destruct Hin|].
  simpl in *. inversion Hnd as [|? ? Hx Hnd']; subst.
  destruct Hin as [->|Hin].
  - now rewrite String.eqb_refl.
  - destruct (String.eqb_spec (name x) (name d)) as [E|_]; [|now apply IH].
    exfalso. apply Hx. rewrite E. now apply in_map.
Qed.

Lemma index_lookup_unique l d :
  NoDup (map name l) -> In d l ->
  assoc_get (name d) (build l []) = Some (f d).
Proof.
  intros Hnd Hin. rewrite index_lookup.
  rewrite (find_by_unique_name (rev l) d); [reflexivity| |now apply in_rev in Hin].
  rewrite map_rev. now apply NoDup_rev.
Qed.

Lemma index_lookup_unknown l n :
  ~ In n (map name l) -> assoc_get n (build l []) = None.
Proof.
  intros Hn. rewrite index_lookup.
  destruct (find _ (rev l)) as [m|] eqn:Hfind; [|reflexivity].
  exfalso. apply find_some in Hfind. destruct Hfind as [Hin E].
  apply String.eqb_eq in E. subst n. apply Hn, in_map. now apply in_rev.
Qed.
End Index.

Lemma fields_of_lookup table n :
  fields_of table (Some n)
  = match assoc_get n table with Some l => l | None => [] end.
Proof.
  unfold fields_of. simpl. destruct (String.eqb_spec n "") as [->|_];
    reflexivity.
Qed.

Lemma mem_In x l : mem x l = true <-> In x l.
Proof.
  unfold mem. rewrite existsb_exists. split.
  - intros (y & Hin & E). apply String.eqb_eq in E. now subst.
  - intros Hin. exists x. split; [exact Hin|apply String.eqb_refl].
Qed.

(** X4. The two tables built from the datamodel, for a datamodel whose model
    names are distinct.  A key is a unique field of a model exactly when the
    model has a field of that name marked [isId] or [isUnique]; it is a
    compound-index field exactly when it is the ["_"]-join of one of the
    model's [uniqueFields] sets; a model the datamodel does not know has
    neither. *)
Theorem metadata_index
    (datamodel : list Dmmf.Model) (d : Dmmf.Model) (k : string) :
  NoDup (map Dmmf.model_name datamodel) ->
  In d datamodel ->
  (mem k (fields_of (uniqueFieldsByModel datamodel) (Some (Dmmf.model_name d)))
   = true
   <-> exists fld, In fld (Dmmf.fields d) /\ Dmmf.field_name fld = k
                   /\ (Dmmf.isId fld = true \/ Dmmf.isUnique fld = true))
  /\ (mem k (fields_of (uniqueIndexFieldsByModel datamodel)
               (Some (Dmmf.model_name d))) = true
      <-> exists set, In set (Dmmf.uniqueFields d)
                      /\ String.concat "_" set = k)
  /\ (forall n, ~ In n (map Dmmf.model_name datamodel) ->
                fields_of (uniqueFieldsByModel datamodel) (Some n) = []
                /\ fields_of (uniqueIndexFieldsByModel datamodel) (Some n) = []).
Proof.
  intros Hnd Hin. unfold uniqueFieldsByModel, uniqueIndexFieldsByModel.
  rewrite !fields_of_lookup.
  rewrite (index_lookup_unique Dmmf.model_name
             (fun m => map Dmmf.field_name
                         (filter (fun f => orb (Dmmf.isId f) (Dmmf.isUnique f))
                            (Dmmf.fields m))) datamodel d Hnd Hin).
  rewrite (index_lookup_unique Dmmf.model_name
             (fun m => map (String.concat "_") (Dmmf.uniqueFields m))
             datamodel d Hnd Hin).
  rewrite !mem_In. split; [|split].
  - rewrite in_map_iff. split.
    + intros (fld & E & Hf). apply filter_In in Hf. destruct Hf as [Hf Hb].
      exists fld. repeat split; auto. now apply orb_true_iff.
    + intros (fld & Hf & E & Hb). exists fld. split; [exact E|].
      apply filter_In. split; [exact Hf|now apply orb_true_iff].
  - rewrite in_map_iff. split.
    + intros (set & E & Hs). now exists set.
    + intros (set & Hs & E). now exists set.
  - intros n Hn. rewrite !fields_of_lookup.
    rewrite (index_lookup_unknown Dmmf.model_name _ datamodel n Hn).
    now rewrite (index_lookup_unknown Dmmf.model_name _ datamodel n Hn).
Qed.

Lemma metadata_index_witness :
  (mem "email"
     (fields_of (uniqueFieldsByModel Scenario.datamodel) (Some "User")) = true
   <-> exists fld, In fld (Dmmf.fields Scenario.userModel)
                   /\ Dmmf.field_name fld = "email"
                   /\ (Dmmf.isId fld = true \/ Dmmf.isUnique fld = true))
  /\ (mem "email"
        (fields_of (uniqueIndexFieldsByModel Scenario.datamodel) (Some "User"))
      = true
      <-> exists set, In set (Dmmf.uniqueFields Scenario.userModel)
                      /\ String.concat "_" set = "email")
  /\ (forall n, ~ In n (map Dmmf.model_name Scenario.datamodel) ->
                fields_of (uniqueFieldsByModel Scenario.datamodel) (Some n) = []
                /\ fields_of (uniqueIndexFieldsByModel Scenario.datamodel)
                     (Some n) = []).
Proof.
  apply (metadata_index Scenario.datamodel Scenario.userModel "email").
  - simpl. repeat constructor; simpl; intuition discriminate.
  - simpl. auto.
Defined.

(** ** Point lookups, continued *)

(** X5. A [findUnique] (or [findUniqueOrThrow]) whose [where] holds a
    defined value under a unique field of the model and names no
    compound-index field is not passed through and not rejected: under a
    config with [createValue] and a [nestModels] object it is turned into
    [findFirst] (or [findFirstOrThrow]) on the same model. *)
Theorem unique_lookup_becomes_findFirst
    (datamodel : list Dmmf.Model) (config : ModelConfig) (params : Params)
    (cv : bool -> value) (props : list (string * value))
    (k : string) (v : value) :
  get (args params) "where" = VObj props ->
  assoc_get k props = Some v -> v <> VUndefined ->
  mem k (fields_of (uniqueFieldsByModel datamodel) (model params)) = true ->
  uniqueIndexField datamodel params = None ->
  createValue config = Some cv ->
  nullish (nestModels config) = false ->
  shouldPassFindUniqueParamsThrough datamodel params config = false
  /\ exists where_ a1 a2,
      getWhere config params = Ok where_
      /\ get a1 "where" = where_ /\ get a2 "where" = where_
      /\ createFindUniqueParams datamodel config params
         = Ok {| params := with_operation_args params "findFirst" a1;
                 ctx := None |}
      /\ createFindUniqueOrThrowParams datamodel config params
         = Ok {| params := with_operation_args params "findFirstOrThrow" a2;
                 ctx := None |}.
Proof.
  intros Hw Hk Hv Hmem Hidx Hcv Hn.
  assert (Hpass : shouldPassFindUniqueParamsThrough datamodel params config
                  = false).
  { unfold shouldPassFindUniqueParamsThrough. rewrite Hidx, Hw. simpl.
    rewrite orb_false_r. apply negb_false_iff, existsb_exists.
    exists (k, v). split; [now apply assoc_get_In|].
    now rewrite Hmem, (typeof_defined v Hv). }
  split; [exact Hpass|].
  destruct (getWhere_total config params cv Hcv) as [where_ Hgw].
  destruct (getInclude_total config params cv Hn Hcv) as (include & Hgi & Hni).
  unfold createFindUniqueParams, createFindUniqueOrThrowParams,
    validateFindUniqueParams.
  rewrite Hpass, Hidx, Hgw, Hgi. simpl.
  destruct (read_args (args params) where_ include) as [a|e] eqn:Hra.
  - exists where_, a, a. simpl.
    rewrite (read_args_where _ _ _ _ Hra). repeat split; reflexivity.
  - unfold read_args in Hra. rewrite (isEmptyObject_spec _ Hni) in Hra.
    discriminate Hra.
Qed.

Lemma unique_lookup_becomes_findFirst_witness :
  shouldPassFindUniqueParamsThrough Scenario.datamodel
    (Scenario.rootParams "User" "findUnique" Scenario.whereId1)
    Extension.builtinDefault = false
  /\ exists where_ a1 a2,
      getWhere Extension.builtinDefault
        (Scenario.rootParams "User" "findUnique" Scenario.whereId1) = Ok where_
      /\ get a1 "where" = where_ /\ get a2 "where" = where_
      /\ createFindUniqueParams Scenario.datamodel Extension.builtinDefault
           (Scenario.rootParams "User" "findUnique" Scenario.whereId1)
         = Ok {| params :=
                   with_operation_args
                     (Scenario.rootParams "User" "findUnique" Scenario.whereId1)
                     "findFirst" a1;
                 ctx := None |}
      /\ createFindUniqueOrThrowParams Scenario.datamodel Extension.builtinDefault
           (Scenario.rootParams "User" "findUnique" Scenario.whereId1)
         = Ok {| params :=
                   with_operation_args
                     (Scenario.rootParams "User" "findUnique" Scenario.whereId1)
                     "findFirstOrThrow" a2;
                 ctx := None |}.
Proof.
  apply (unique_lookup_becomes_findFirst Scenario.datamodel
           Extension.builtinDefault
           (Scenario.rootParams "User" "findUnique" Scenario.whereId1)
           VBool [("id", VNum 1)] "id" (VNum 1));
    try reflexivity.
  discriminate.
Defined.

(** X6. A point lookup the client would reject anyway is handed back
    untouched, whatever the config holds: when [where] is missing or falsy,
    when it is not an object, and when none of its keys is a unique or
    compound-index field with a defined value (so [{ id: undefined }] passes
    through as well).  The rule does not throw in these cases, even for a
    config without [createValue] or [nestModels]. *)
Theorem invalid_lookup_passes_through
    (datamodel : list Dmmf.Model) (config : ModelConfig) (params : Params) :
  truthy (get (args params) "where") = false
  \/ String.eqb (typeof (get (args params) "where")) "object" = false
  \/ (forall key val,
         In (key, val) (own_props (get (args params) "where")) ->
         (mem key (fields_of (uniqueFieldsByModel datamodel) (model params))
          = false
          /\ mem key (fields_of (uniqueIndexFieldsByModel datamodel)
                        (model params)) = false)
         \/ val = VUndefined) ->
  createFindUniqueParams datamodel config params
  = Ok {| params := params; ctx := None |}
  /\ createFindUniqueOrThrowParams datamodel config params
     = Ok {| params := params; ctx := None |}.
Proof.
  intros H.
  assert (Hpass : shouldPassFindUniqueParamsThrough datamodel params config
                  = true).
  { unfold shouldPassFindUniqueParamsThrough.
    destruct H as [H|[H|H]].
    - now rewrite H.
    - rewrite H. simpl. now rewrite orb_true_r.
    - apply orb_true_iff. right. apply orb_true_iff. right.
      apply orb_true_iff. left. apply negb_true_iff.
      apply not_true_is_false. intros Hex. apply existsb_exists in Hex.
      destruct Hex as ([key val] & Hin & Hb).
      apply andb_true_iff in Hb. destruct Hb as [Hkey Hval].
      destruct (H key val Hin) as [[H1 H2]| ->].
      + rewrite H1, H2 in Hkey. discriminate.
      + discriminate. }
  unfold createFindUniqueParams, createFindUniqueOrThrowParams.
  now rewrite Hpass.
Qed.

Lemma invalid_lookup_passes_through_witness :
  createFindUniqueParams Scenario.datamodel Scenario.bareOverride
    (Scenario.rootParams "User" "findUnique"
       (VObj [("where", VObj [("id", VUndefined)])]))
  = Ok {| params :=
            Scenario.rootParams "User" "findUnique"
              (VObj [("where", VObj [("id", VUndefined)])]);
          ctx := None |}
  /\ createFindUniqueOrThrowParams Scenario.datamodel Scenario.bareOverride
       (Scenario.rootParams "User" "findUnique"
          (VObj [("where", VObj [("id", VUndefined)])]))
     = Ok {| params :=
               Scenario.rootParams "User" "findUnique"
                 (VObj [("where", VObj [("id", VUndefined)])]);
             ctx := None |}.
Proof.
  apply (invalid_lookup_passes_through Scenario.datamodel Scenario.bareOverride
           (Scenario.rootParams "User" "findUnique"
              (VObj [("where", VObj [("id", VUndefined)])]))).
  right. right. simpl. intros key val [[= <- <-]|[]]. now right.
Defined.

(** ** Writes *)

(** X7. [updateMany] with args: the [where] that is sent on holds the
    configured field, with the caller's constraint when it is truthy and
    [createValue(false)] otherwise; the other keys of the [where] and of the
    args (the [data]) keep their values, and kind, model and scope are
    kept. *)
Theorem updateMany_skips_deleted_rows
    (config : ModelConfig) (params : Params) (cv : bool -> value) :
  truthy (args params) = true ->
  createValue config = Some cv ->
  exists a,
    createUpdateManyParams config params
    = Ok {| params := with_args params a; ctx := None |}
    /\ get (get a "where") (field_key config)
       = (if truthy (get (get (args params) "where") (field_key config))
          then get (get (args params) "where") (field_key config)
          else cv false)
    /\ (forall k, k <> field_key config -> k <> "length" ->
                  get (get a "where") k = get (get (args params) "where") k)
    /\ (forall k, k <> "where" -> k <> "length" ->
                  get a k = get (args params) k).
Proof.
  intros Ha Hcv. unfold createUpdateManyParams, call_createValue.
  rewrite Ha, Hcv. simpl.
  destruct (truthy (get (get (args params) "where") (field_key config)));
    simpl; eexists; (split; [reflexivity|]); rewrite !get_set_same;
    (split; [reflexivity|]); split; intros k Hk Hl;
    rewrite get_set_other by exact Hk; now apply get_own_props.
Qed.

Lemma updateMany_skips_deleted_rows_witness :
  exists a,
    createUpdateManyParams Extension.builtinDefault
      (Scenario.rootParams "Post" "updateMany"
         (VObj [("where", VObj [("title", VStr "x")]);
                ("data", VObj [("title", VStr "y")])]))
    = Ok {| params :=
              with_args
                (Scenario.rootParams "Post" "updateMany"
                   (VObj [("where", VObj [("title", VStr "x")]);
                          ("data", VObj [("title", VStr "y")])])) a;
            ctx := None |}
    /\ get (get a "where") "deleted" = VBool false
    /\ (forall k, k <> "deleted" -> k <> "length" ->
                  get (get a "where") k = get (VObj [("title", VStr "x")]) k)
    /\ (forall k, k <> "where" -> k <> "length" ->
                  get a k
                  = get (VObj [("where", VObj [("title", VStr "x")]);
                               ("data", VObj [("title", VStr "y")])]) k).
Proof.
  exact (updateMany_skips_deleted_rows Extension.builtinDefault
           (Scenario.rootParams "Post" "updateMany"
              (VObj [("where", VObj [("title", VStr "x")]);
                     ("data", VObj [("title", VStr "y")])]))
           VBool eq_refl eq_refl).
Defined.

(** X8. [upsert]: reached through a to-one relation it always throws the
    relation-safety error; neither [allowToOneUpdates] nor the
    [__passUpdateThrough] sentinel is consulted.  At the root, through a list
    relation, or under a scope without relation, it is returned as it
    came. *)
Theorem upsert_guard (config : ModelConfig) (params : Params) :
  (forall s r,
      scope params = Some s -> relations s = Some r ->
      isList (to r) = false ->
      exists message,
        createUpsertParams config params = Throw (RelationSafetyError message))
  /\ ((scope params = None
       \/ exists s, scope params = Some s
                    /\ (relations s = None
                        \/ exists r, relations s = Some r
                                     /\ isList (to r) = true)) ->
      createUpsertParams config params
      = Ok {| params := params; ctx := None |}).
Proof.
  unfold createUpsertParams, through_toOne. split.
  - intros s r -> -> ->. eexists. reflexivity.
  - intros [->|(s & -> & [->|(r & -> & ->)])]; reflexivity.
Qed.

Lemma upsert_guard_witness :
  exists message,
    createUpsertParams Scenario.allowingCompound
      (Scenario.nestedParams "User" "upsert"
         (VObj [("__passUpdateThrough", VBool true)]) "author" false None)
    = Throw (RelationSafetyError message).
Proof.
  exact (proj1 (upsert_guard Scenario.allowingCompound
                  (Scenario.nestedParams "User" "upsert"
                     (VObj [("__passUpdateThrough", VBool true)])
                     "author" false None))
           _ _ eq_refl eq_refl eq_refl).
Defined.

Section RemoveFacts.
Context {A : Type}.
Implicit Types (l : list (string * A)) (k : string).

Lemma assoc_get_remove_same l k : assoc_get k (assoc_remove l k) = None.
Proof.
  induction l as [|[k' v'] rest IH]; simpl; [reflexivity|].
  destruct (String.eqb k k') eqn:E; [exact IH|]. simpl. now rewrite E.
Qed.

Lemma assoc_get_remove_other l k k' :
  k' <> k -> assoc_get k' (assoc_remove l k) = assoc_get k' l.
Proof.
  intros Hne. induction l as [|[k0 v0] rest IH]; simpl; [reflexivity|].
  destruct (String.eqb k k0) eqn:E; simpl.
  - apply String.eqb_eq in E. subst k0.
    apply String.eqb_neq in Hne. now rewrite Hne.
  - now rewrite IH.
Qed.
End RemoveFacts.

Lemma createUpdateParams_with_sentinel config params props :
  args params = VObj props ->
  truthy (get (args params) "__passUpdateThrough") = true ->
  createUpdateParams config params
  = Ok {| params :=
            with_args params (VObj (assoc_remove props "__passUpdateThrough"));
          ctx := None |}.
Proof.
  intros Hobj Hs. unfold createUpdateParams. rewrite Hs.
  destruct (through_toOne params); rewrite ?andb_false_r; simpl;
    now rewrite Hobj.
Qed.

(** X9. An [update] that carries the [__passUpdateThrough] sentinel is let
    through whatever the relation and [allowToOneUpdates] are, and the
    sentinel is taken out of the args that are sent on; every other key of
    the args keeps its value. *)
Theorem update_sentinel_is_stripped
    (config : ModelConfig) (params : Params) (props : list (string * value)) :
  args params = VObj props ->
  truthy (get (args params) "__passUpdateThrough") = true ->
  exists a,
    createUpdateParams config params
    = Ok {| params := with_args params a; ctx := None |}
    /\ get a "__passUpdateThrough" = VUndefined
    /\ forall k, k <> "__passUpdateThrough" -> get a k = get (args params) k.
Proof.
  intros Hobj Hs.
  rewrite (createUpdateParams_with_sentinel config params props Hobj Hs).
  eexists. split; [reflexivity|]. rewrite Hobj. split.
  - now rewrite get_obj, assoc_get_remove_same.
  - intros k Hk. rewrite !get_obj. now rewrite assoc_get_remove_other.
Qed.

Lemma update_sentinel_is_stripped_witness :
  exists a,
    createUpdateParams Extension.builtinDefault
      (Scenario.nestedParams "User" "update"
         (VObj [("__passUpdateThrough", VBool true); ("deleted", VBool true)])
         "author" false None)
    = Ok {| params :=
              with_args
                (Scenario.nestedParams "User" "update"
                   (VObj [("__passUpdateThrough", VBool true);
                          ("deleted", VBool true)])
                   "author" false None) a;
            ctx := None |}
    /\ get a "__passUpdateThrough" = VUndefined
    /\ forall k, k <> "__passUpdateThrough" ->
                 get a k
                 = get (VObj [("__passUpdateThrough", VBool true);
                              ("deleted", VBool true)]) k.
Proof.
  exact (update_sentinel_is_stripped Extension.builtinDefault
           (Scenario.nestedParams "User" "update"
              (VObj [("__passUpdateThrough", VBool true);
                     ("deleted", VBool true)])
              "author" false None)
           _ eq_refl eq_refl).
Defined.

(** X10. The boolean shorthand [delete: true] on a nested node, followed by
    the [update] rule on what the [delete] rule returned: the node ends as
    an [update] whose args are exactly [{ field: createValue(true) }].  The
    sentinel lets it through a to-one relation although [allowToOneUpdates]
    is unset, and is gone from the result. *)
Theorem delete_shorthand_then_update
    (config : ModelConfig) (params : Params) (s : Scope)
    (cv : bool -> value) (m : string) :
  model params = Some m -> m <> "" ->
  scope params = Some s ->
  args params = VBool true ->
  flag (forceDelete config) = false ->
  createValue config = Some cv ->
  field_key config <> "__passUpdateThrough" ->
  exists r1,
    createDeleteParams config params = Ok r1
    /\ operation (Types.params r1) = "update"
    /\ createUpdateParams config (Types.params r1)
       = Ok {| params :=
                 with_operation_args params "update"
                   (VObj [(field_key config, cv true)]);
               ctx := None |}.
Proof.
  intros Hm Hne Hs Ha Hfd Hcv Hf. unfold createDeleteParams, call_createValue.
  assert (Hts : truthy_string (model params) = true)
    by (apply truthy_string_spec; eauto).
  rewrite Hts, Hs, Ha, Hcv, Hfd. simpl.
  apply String.eqb_neq in Hf. rewrite Hf.
  assert (Hf' : String.eqb "__passUpdateThrough" (field_key config) = false)
    by (now rewrite String.eqb_sym).
  eexists. split; [reflexivity|]. split; [reflexivity|].
  cbn [Types.params].
  rewrite (createUpdateParams_with_sentinel config
             (with_operation_args params "update"
                (VObj [("__passUpdateThrough", VBool true);
                       (field_key config, cv true)]))
             [("__passUpdateThrough", VBool true); (field_key config, cv true)]
             eq_refl eq_refl).
  cbn [assoc_remove]. rewrite String.eqb_refl, Hf'. reflexivity.
Qed.

Lemma delete_shorthand_then_update_witness :
  exists r1,
    createDeleteParams Extension.builtinDefault
      (Scenario.nestedParams "User" "delete" (VBool true) "author" false None)
    = Ok r1
    /\ operation (Types.params r1) = "update"
    /\ createUpdateParams Extension.builtinDefault (Types.params r1)
       = Ok {| params :=
                 with_operation_args
                   (Scenario.nestedParams "User" "delete" (VBool true)
                      "author" false None)
                   "update" (VObj [("deleted", VBool true)]);
               ctx := None |}.
Proof.
  eapply (delete_shorthand_then_update Extension.builtinDefault
            (Scenario.nestedParams "User" "delete" (VBool true)
               "author" false None)
            _ VBool "User"); try reflexivity; discriminate.
Defined.

(** X11. What the [delete] rule leaves alone, so that the client raises its
    own error: a node without model, the shorthand [delete: false], and a
    root [delete] without [where].  The params come back unchanged whatever
    the config holds, [forceDelete] included, and the rule does not throw. *)
Theorem delete_passes_malformed_through
    (config : ModelConfig) (params : Params) :
  truthy_string (model params) = false
  \/ args params = VBool false
  \/ (scope params = None /\ truthy (get (args params) "where") = false) ->
  createDeleteParams config params = Ok {| params := params; ctx := None |}.
Proof.
  unfold createDeleteParams. intros [H|[H|[Hs Hw]]].
  - now rewrite H.
  - rewrite H. simpl. now rewrite orb_true_r.
  - rewrite Hs, Hw. simpl. now rewrite !orb_true_r.
Qed.

Lemma delete_passes_malformed_through_witness :
  createDeleteParams (Extension.set_forceDelete true Scenario.bareOverride)
    (Scenario.rootParams "User" "delete" (VObj [("id", VNum 1)]))
  = Ok {| params :=
            Scenario.rootParams "User" "delete" (VObj [("id", VNum 1)]);
          ctx := None |}.
Proof.
  apply (delete_passes_malformed_through
           (Extension.set_forceDelete true Scenario.bareOverride)
           (Scenario.rootParams "User" "delete" (VObj [("id", VNum 1)]))).
  right. right. split; reflexivity.
Defined.

(** X12. [deleteMany] without [forceDelete] never stays a [deleteMany]: on a
    node with a model it becomes an [updateMany] whose [data] marks the rows
    as deleted and whose [where] is the new-where transform of [args.where],
    or of the args themselves when they have no [where].  A node without
    model is returned as it came. *)
Theorem deleteMany_is_soft
    (config : ModelConfig) (params : Params) (cv : bool -> value) (m : string) :
  model params = Some m -> m <> "" ->
  flag (forceDelete config) = false ->
  createValue config = Some cv ->
  exists where_,
    getNewWhere config (or_else (get (args params) "where") (args params))
    = Ok where_
    /\ createDeleteManyParams config params
       = Ok {| params :=
                 with_operation_args params "updateMany"
                   (VObj [("where", where_);
                          ("data", VObj [(field_key config, cv true)])]);
               ctx := None |}.
Proof.
  intros Hm Hne Hfd Hcv.
  destruct (getNewWhere_total config cv
              (or_else (get (args params) "where") (args params)) Hcv)
    as [where_ Hnw].
  exists where_. split; [exact Hnw|].
  unfold createDeleteManyParams, call_createValue.
  assert (Hts : truthy_string (model params) = true)
    by (apply truthy_string_spec; eauto).
  now rewrite Hts, Hnw, Hfd, Hcv.
Qed.

Lemma deleteMany_is_soft_witness :
  exists where_,
    getNewWhere Extension.builtinDefault
      (or_else (get (VObj [("status", VStr "x")]) "where")
         (VObj [("status", VStr "x")]))
    = Ok where_
    /\ createDeleteManyParams Extension.builtinDefault
         (Scenario.nestedParams "Post" "deleteMany"
            (VObj [("status", VStr "x")]) "posts" true None)
       = Ok {| params :=
                 with_operation_args
                   (Scenario.nestedParams "Post" "deleteMany"
                      (VObj [("status", VStr "x")]) "posts" true None)
                   "updateMany"
                   (VObj [("where", where_);
                          ("data", VObj [("deleted", VBool true)])]);
               ctx := None |}.
Proof.
  apply (deleteMany_is_soft Extension.builtinDefault
           (Scenario.nestedParams "Post" "deleteMany"
              (VObj [("status", VStr "x")]) "posts" true None)
           VBool "Post"); try reflexivity; discriminate.
Defined.

(** ** Relation filters and selects *)

Lemma getNewWhere_is_object config w where_ :
  getNewWhere config w = Ok where_ -> VObj (own_props where_) = where_.
Proof.
  unfold getNewWhere.
  destruct (queryOption config) as [[| |]|];
    destruct (call_createValue config false); simpl;
    intros [= <-]; reflexivity.
Qed.

(** X13. The [where] pseudo-operation outside the [every] case.  A node
    without scope is returned as it came.  A scoped node whose modifier is
    not [every], or whose args already hold a truthy value for the configured
    field, gets the new-where transform of its args, which overrides the
    caller's constraint on the field in the modes [except] and [only]. *)
Theorem where_filter_uses_new_where
    (config : ModelConfig) (params : Params) (s : Scope) (cv : bool -> value) :
  scope params = Some s ->
  (modifier s <> Some "every"
   \/ truthy (get (args params) (field_key config)) = true) ->
  createValue config = Some cv ->
  exists where_,
    getNewWhere config (args params) = Ok where_
    /\ createWhereParams config params
       = Ok {| params := with_args params where_; ctx := None |}.
Proof.
  intros Hs Hcase Hcv.
  destruct (getNewWhere_total config cv (args params) Hcv) as [where_ Hnw].
  exists where_. split; [exact Hnw|].
  unfold createWhereParams. rewrite Hs.
  assert (Hevery :
    (match modifier s with
     | Some m =>
         if String.eqb m "every"
         then Types.bind (get_strict (args params) (field_key config))
                (fun set => Ok (negb (truthy set)))
         else Ok false
     | None => Ok false
     end) = Ok false).
  { destruct Hcase as [Hm|Ht].
    - destruct (modifier s) as [md|]; [|reflexivity].
      destruct (String.eqb_spec md "every") as [->|_]; [|reflexivity].
      now contradiction Hm.
    - destruct (modifier s) as [md|]; [|reflexivity].
      destruct (String.eqb md "every"); [|reflexivity].
      unfold get_strict.
      rewrite (truthy_not_nullish _ (truthy_get_truthy _ _ Ht)). simpl.
      now rewrite Ht. }
  rewrite Hevery. simpl. rewrite Hnw. simpl.
  now rewrite (getNewWhere_is_object _ _ _ Hnw).
Qed.

Lemma where_filter_uses_new_where_witness :
  exists where_,
    getNewWhere Extension.builtinDefault
      (VObj [("title", VStr "x"); ("deleted", VBool true)]) = Ok where_
    /\ createWhereParams Extension.builtinDefault
         (Scenario.nestedParams "Post" "where"
            (VObj [("title", VStr "x"); ("deleted", VBool true)])
            "posts" true (Some "some"))
       = Ok {| params :=
                 with_args
                   (Scenario.nestedParams "Post" "where"
                      (VObj [("title", VStr "x"); ("deleted", VBool true)])
                      "posts" true (Some "some"))
                   where_;
               ctx := None |}.
Proof.
  apply (where_filter_uses_new_where Extension.builtinDefault
           (Scenario.nestedParams "Post" "where"
              (VObj [("title", VStr "x"); ("deleted", VBool true)])
              "posts" true (Some "some"))
           _ VBool eq_refl); [left; discriminate|reflexivity].
Defined.

(** X14. The [select] pseudo-operation.  Under an [include] it is returned
    as it came.  Otherwise, through a to-one relation no [where] is ever
    added: when the caller selects fields without the configured one, the
    node is handed to [addDeletedToSelect] and the context records
    [deletedFieldAdded: true]; in every other to-one case the node is
    returned unchanged, without context.  Everywhere else the node gets the
    visibility [where] of [getWhere], its other args untouched. *)
Theorem select_rule_cases
    (addDeletedToSelect : Params -> ModelConfig -> Params)
    (config : ModelConfig) (params : Params) :
  (forall s, scope params = Some s ->
             operation (parentParams s) = "include" ->
             createSelectParams addDeletedToSelect config params
             = Ok {| params := params; ctx := None |})
  /\ (forall s r,
         scope params = Some s ->
         operation (parentParams s) <> "include" ->
         relations s = Some r -> isList (to r) = false ->
         createSelectParams addDeletedToSelect config params
         = if andb (truthy (get (args params) "select"))
                   (negb (truthy (get (get (args params) "select")
                                    (field_key config))))
           then Ok {| params := addDeletedToSelect params config;
                      ctx := Some (VObj [("deletedFieldAdded", VBool true)]) |}
           else Ok {| params := params; ctx := None |})
  /\ (forall where_,
         through_toOne params = None ->
         (forall s, scope params = Some s ->
                    operation (parentParams s) <> "include") ->
         getWhere config params = Ok where_ ->
         exists a,
           createSelectParams addDeletedToSelect config params
           = Ok {| params := with_args params a; ctx := None |}
           /\ get a "where" = where_
           /\ forall k, k <> "where" -> k <> "length" ->
                        get a k = get (args params) k).
Proof.
  unfold createSelectParams. split; [|split].
  - intros s -> ->. reflexivity.
  - intros s r Hs Hp Hr Hl. unfold through_toOne. rewrite Hs, Hr, Hl.
    apply String.eqb_neq in Hp. now rewrite Hp.
  - intros where_ Hto Hp Hgw. rewrite Hto, Hgw.
    assert (Hinc :
      match scope params with
      | Some s => String.eqb (operation (parentParams s)) "include"
      | None => false
      end = false).
    { destruct (scope params) as [s|]; [|reflexivity].
      apply String.eqb_neq. now apply Hp. }
    rewrite Hinc. simpl. eexists. split; [reflexivity|].
    split; [apply get_set_same|].
    intros k Hk Hl. rewrite get_set_other by exact Hk.
    now apply get_own_props.
Qed.

Lemma select_rule_cases_witness :
  createSelectParams Scenario.keepSelect Extension.builtinDefault
    (Scenario.nestedParams "User" "select"
       (VObj [("select", VObj [("email", VBool true)])]) "author" false None)
  = Ok {| params :=
            Scenario.keepSelect
              (Scenario.nestedParams "User" "select"
                 (VObj [("select", VObj [("email", VBool true)])])
                 "author" false None)
              Extension.builtinDefault;
          ctx := Some (VObj [("deletedFieldAdded", VBool true)]) |}.
Proof.
  refine (proj1 (proj2 (select_rule_cases Scenario.keepSelect
                          Extension.builtinDefault
                          (Scenario.nestedParams "User" "select"
                             (VObj [("select", VObj [("email", VBool true)])])
                             "author" false None)))
            _ _ eq_refl _ eq_refl eq_refl).
  discriminate.
Defined.

(** ** The root handler *)

(** X15. A call the engine has no rule for goes to the client exactly as it
    was made, its result is returned as the client gave it, and the config
    store is not touched: this is so for every operation on a model that is
    not configured, and for [create] (or any other kind outside the rule
    table) on a configured model, which therefore does not end a visibility
    mode set before it. *)
Theorem unruled_call_goes_straight_to_client
    (datamodel : list Dmmf.Model)
    (client : string -> string -> value -> result value)
    (addDeletedToSelect : Params -> ModelConfig -> Params)
    (modifyReadResult : ModelConfig -> value -> Params -> option value -> value)
    (st : Extension.Store) (m op : string) (a : value) :
  Extension.lookup st m = None
  \/ assoc_get op (Extension.rules datamodel addDeletedToSelect) = None ->
  Extension.method datamodel client addDeletedToSelect modifyReadResult
    st m op a
  = {| Extension.store := st;
       Extension.events := [Extension.Executed (Extension.lowerFirst m) op a];
       Extension.returned := client (Extension.lowerFirst m) op a |}.
Proof.
  intros H. unfold Extension.method, Extension.rootOperation,
    Extension.createParamsByModel.
  cbn [model operation args opt_to_string].
  destruct H as [-> | ->]; [reflexivity|].
  now destruct (Extension.lookup st m).
Qed.

Lemma unruled_call_goes_straight_to_client_witness :
  Extension.method Scenario.datamodel Scenario.answering Scenario.keepSelect
    Scenario.keepResult
    {| Extension.default :=
         Extension.set_queryOption all Extension.builtinDefault;
       Extension.modelConfig := Extension.modelConfig Scenario.store0 |}
    "User" "create" (VObj [("data", VObj [("email", VStr "a@b.c")])])
  = {| Extension.store :=
         {| Extension.default :=
              Extension.set_queryOption all Extension.builtinDefault;
            Extension.modelConfig := Extension.modelConfig Scenario.store0 |};
       Extension.events :=
         [Extension.Executed (Extension.lowerFirst "User") "create"
            (VObj [("data", VObj [("email", VStr "a@b.c")])])];
       Extension.returned :=
         Scenario.answering (Extension.lowerFirst "User") "create"
           (VObj [("data", VObj [("email", VStr "a@b.c")])]) |}.
Proof.
  apply (unruled_call_goes_straight_to_client Scenario.datamodel
           Scenario.answering Scenario.keepSelect Scenario.keepResult).
  right. reflexivity.
Defined.

(** The kinds the rules of the root operations can produce. *)
Ltac rule_kind_step :=
  match goal with
  | H : Ok _ = Ok _ |- _ => injection H as <-
  | H : Throw _ = Ok _ |- _ => discriminate H
  | H : just _ = Ok _ |- _ => unfold just in H
  | H : Types.bind ?c _ = Ok _ |- _ =>
      destruct c eqn:?; cbn [Types.bind] in H
  | H : (if ?b then _ else _) = Ok _ |- _ => destruct b eqn:?
  | H : match ?x with Some _ => _ | None => _ end = Ok _ |- _ =>
      destruct x eqn:?
  end.

Lemma rule_keeps_or_sets_kind
    (datamodel : list Dmmf.Model)
    (addDeletedToSelect : Params -> ModelConfig -> Params)
    (op : string) (rule : CreateParams)
    (config : ModelConfig) (params : Params) (r : CreateParamsReturn) :
  op <> "select" ->
  assoc_get op (Extension.rules datamodel addDeletedToSelect) = Some rule ->
  rule config params = Ok r ->
  operation (Types.params r) = operation params
  \/ In (operation (Types.params r))
        ["delete"; "update"; "deleteMany"; "updateMany"; "findFirst";
         "findFirstOrThrow"; "findMany"; "groupBy"].
Proof.
  intros Hsel Hrule Hr. unfold Extension.rules in Hrule.
  cbn [assoc_get] in Hrule.
  repeat match type of Hrule with
         | (if String.eqb op ?name then _ else _) = Some _ =>
             destruct (String.eqb_spec op name) as [->|_];
             [injection Hrule as <-|]
         end;
    try discriminate Hrule;
    try (now contradiction Hsel).
  all: unfold createDeleteParams, createDeleteManyParams, createUpdateParams,
         createUpdateManyParams, createUpsertParams, createFindFirstParams,
         createFindFirstOrThrowParams, createFindUniqueParams,
         createFindUniqueOrThrowParams, createFindManyParams,
         createCountParams, createAggregateParams, createWhereParams,
         createGroupByParams in Hr.
  all: repeat rule_kind_step.
  all: cbn [Types.params operation with_operation_args with_args];
    try (left; reflexivity);
    try (right; simpl; tauto).
  all: destruct (flag (forceDelete config)); right; simpl; tauto.
Qed.

(** X16. The result of a root call is never post-processed.  For every root
    operation that has a rule, on a configured model, when the rewrite and
    the execution succeed the method returns exactly what the client
    returned: the kind a rule produces is the kind it was given or one of
    [delete], [update], [deleteMany], [updateMany], [findFirst],
    [findFirstOrThrow], [findMany], [groupBy], never [include] or [select],
    the only kinds that have a result modifier. *)
Theorem root_result_is_the_clients
    (datamodel : list Dmmf.Model)
    (client : string -> string -> value -> result value)
    (addDeletedToSelect : Params -> ModelConfig -> Params)
    (modifyReadResult : ModelConfig -> value -> Params -> option value -> value)
    (st : Extension.Store) (m op : string) (a : value)
    (config : ModelConfig) (rule : CreateParams)
    (r : CreateParamsReturn) (res : value) :
  In op Extension.rootOperations ->
  Extension.lookup st m = Some config ->
  assoc_get op (Extension.rules datamodel addDeletedToSelect) = Some rule ->
  rule config {| model := Some m; operation := op; args := a; scope := None |}
  = Ok r ->
  client (Extension.lowerFirst m) (operation (params r)) (args (params r))
  = Ok res ->
  Extension.returned
    (Extension.method datamodel client addDeletedToSelect modifyReadResult
       st m op a)
  = Ok res.
Proof.
  intros Hin Hst Hrule Hr Hc.
  assert (Hsel : op <> "select").
  { intros ->. simpl in Hin. intuition discriminate. }
  pose proof (rule_keeps_or_sets_kind datamodel addDeletedToSelect op rule
                config _ r Hsel Hrule Hr) as Hkind.
  cbn [operation] in Hkind.
  assert (Hmod :
    orb (String.eqb (operation (params r)) "include")
        (String.eqb (operation (params r)) "select") = false).
  { destruct Hkind as [-> | Hk].
    - simpl in Hin.
      destruct Hin as [<-|[<-|[<-|[<-|[<-|[<-|[<-|[<-|[<-|[<-|[<-|[<-|[<-|[<-|[]]]]]]]]]]]]]]];
        reflexivity.
    - simpl in Hk.
      destruct Hk as [<-|[<-|[<-|[<-|[<-|[<-|[<-|[<-|[]]]]]]]]]; reflexivity. }
  unfold Extension.method, Extension.rootOperation,
    Extension.createParamsByModel.
  cbn [model operation args opt_to_string]. rewrite Hst, Hrule, Hr.
  destruct r as [p c]. cbn [params] in *. rewrite Hc.
  destruct (lookup_assign st m config Extension.reset Hst)
    as (st' & Hassign & Hlook).
  rewrite Hassign. cbn [Extension.returned].
  unfold Extension.modifyResultByModel. rewrite Hmod.
  now destruct (Extension.lookup st' (opt_to_string (model p))).
Qed.

Lemma root_result_is_the_clients_witness :
  Extension.returned
    (Extension.method Scenario.datamodel Scenario.answering Scenario.keepSelect
       (fun _ _ _ _ => VStr "modified")
       Scenario.store0 "User" "findUnique" Scenario.whereId1)
  = Ok (VObj []).
Proof.
  apply (root_result_is_the_clients Scenario.datamodel Scenario.answering
           Scenario.keepSelect (fun _ _ _ _ => VStr "modified")
           Scenario.store0 "User" "findUnique" Scenario.whereId1
           Extension.builtinDefault
           (createFindUniqueParams Scenario.datamodel)
           {| params :=
                Scenario.rootParams "User" "findFirst"
                  (VObj [("where", VObj [("id", VNum 1);
                                         ("deleted", VBool false)])]);
              ctx := None |}
           (VObj []));
    try reflexivity.
  simpl. auto 10.
Defined.


(** ** The visibility mutators *)

Lemma createFindManyParams_total config params cv :
  createValue config = Some cv ->
  nullish (nestModels config) = false ->
  exists r, createFindManyParams config params = Ok r.
Proof.
  intros Hcv Hn. unfold createFindManyParams.
  destruct (getWhere_total config params cv Hcv) as [where_ ->].
  destruct (getInclude_total config params cv Hn Hcv) as (include & -> & Hni).
  simpl. unfold read_args. rewrite (isEmptyObject_spec _ Hni). simpl.
  eexists. reflexivity.
Qed.

Lemma method_findMany_success
    (datamodel : list Dmmf.Model)
    (client : string -> string -> value -> result value)
    (addDeletedToSelect : Params -> ModelConfig -> Params)
    (modifyReadResult : ModelConfig -> value -> Params -> option value -> value)
    (st : Extension.Store) (m : string) (a : value)
    (config : ModelConfig) (cv : bool -> value) :
  Extension.lookup st m = Some config ->
  createValue config = Some cv ->
  nullish (nestModels config) = false ->
  (forall x, exists res, client (Extension.lowerFirst m) "findMany" x = Ok res) ->
  let out :=
    Extension.method datamodel client addDeletedToSelect modifyReadResult
      st m "findMany" a in
  exists a',
    Extension.events out
    = [Extension.Executed (Extension.lowerFirst m) "findMany" a';
       Extension.ResetDone m]
    /\ getWhere config
         {| model := Some m; operation := "findMany"; args := a; scope := None |}
       = Ok (get a' "where")
    /\ Extension.lookup (Extension.store out) m = Some (Extension.reset config).
Proof.
  intros Hst Hcv Hn Hclient out.
  set (initial := {| model := Some m; operation := "findMany"; args := a;
                     scope := None |}).
  destruct (createFindManyParams_total config initial cv Hcv Hn) as [r Hr].
  destruct (find_shape_frame config initial "findMany" r Hr)
    as (Hgw & _ & _ & _ & Hop & _).
  pose proof (method_outcome datamodel client addDeletedToSelect
                modifyReadResult st m "findMany" a config createFindManyParams
                Hst eq_refl) as H.
  cbv zeta in H. fold initial out in H. rewrite Hr, Hop in H.
  destruct (Hclient (args (params r))) as [res Hres]. rewrite Hres in H.
  destruct H as [Hl He]. exists (args (params r)). auto.
Qed.

(** X17. A visibility mutator holds for the next successful root call and
    no longer.  After [withTrashed()] a [findMany] is executed with the
    caller's [where] (or [{}]), the configured field left alone; after
    [onlyTrashed()] it is executed with the field set to
    [{ not: createValue(false) }]; in both cases the model is back in mode
    [except], with [forceDelete] off and [nestModels] empty, once the call
    has returned. *)
Theorem mutator_holds_for_one_read
    (datamodel : list Dmmf.Model)
    (client : string -> string -> value -> result value)
    (addDeletedToSelect : Params -> ModelConfig -> Params)
    (modifyReadResult : ModelConfig -> value -> Params -> option value -> value)
    (st : Extension.Store) (m : string) (a : value)
    (config : ModelConfig) (cv : bool -> value) :
  Extension.lookup st m = Some config ->
  createValue config = Some cv ->
  nullish (nestModels config) = false ->
  (forall x, exists res, client (Extension.lowerFirst m) "findMany" x = Ok res) ->
  let find st' :=
    Extension.method datamodel client addDeletedToSelect modifyReadResult
      st' m "findMany" a in
  (exists st1 a',
      Extension.withTrashed st m = Ok st1
      /\ Extension.events (find st1)
         = [Extension.Executed (Extension.lowerFirst m) "findMany" a';
            Extension.ResetDone m]
      /\ get a' "where"
         = or_else (get (or_else a (VObj [])) "where") (VObj [])
      /\ Extension.lookup (Extension.store (find st1)) m
         = Some (Extension.reset config))
  /\ (exists st1 a',
         Extension.onlyTrashed st m = Ok st1
         /\ Extension.events (find st1)
            = [Extension.Executed (Extension.lowerFirst m) "findMany" a';
               Extension.ResetDone m]
         /\ get (get a' "where") (field_key config) = VObj [("not", cv false)]
         /\ Extension.lookup (Extension.store (find st1)) m
            = Some (Extension.reset config)).
Proof.
  intros Hst Hcv Hn Hclient find. split.
  - destruct (lookup_assign st m config (Extension.set_queryOption all) Hst)
      as (st1 & Hassign & Hst1).
    destruct (method_findMany_success datamodel client addDeletedToSelect
                modifyReadResult st1 m a _ cv Hst1 Hcv Hn Hclient)
      as (a' & He & Hgw & Hl).
    exists st1, a'. unfold Extension.withTrashed. rewrite Hassign.
    split; [reflexivity|]. split; [exact He|]. split; [|exact Hl].
    unfold getWhere in Hgw. simpl in Hgw. now injection Hgw as <-.
  - destruct (lookup_assign st m config (Extension.set_queryOption only) Hst)
      as (st1 & Hassign & Hst1).
    destruct (method_findMany_success datamodel client addDeletedToSelect
                modifyReadResult st1 m a _ cv Hst1 Hcv Hn Hclient)
      as (a' & He & Hgw & Hl).
    exists st1, a'. unfold Extension.onlyTrashed. rewrite Hassign.
    split; [reflexivity|]. split; [exact He|]. split; [|exact Hl].
    unfold getWhere, call_createValue in Hgw. simpl in Hgw.
    rewrite Hcv in Hgw. simpl in Hgw. injection Hgw as <-.
    apply get_set_same.
Qed.

Lemma mutator_holds_for_one_read_witness :
  let find st' :=
    Extension.method Scenario.datamodel Scenario.answering Scenario.keepSelect
      Scenario.keepResult st' "User" "findMany" Scenario.whereId1 in
  (exists st1 a',
      Extension.withTrashed Scenario.store0 "User" = Ok st1
      /\ Extension.events (find st1)
         = [Extension.Executed (Extension.lowerFirst "User") "findMany" a';
            Extension.ResetDone "User"]
      /\ get a' "where"
         = or_else (get (or_else Scenario.whereId1 (VObj [])) "where") (VObj [])
      /\ Extension.lookup (Extension.store (find st1)) "User"
         = Some (Extension.reset Extension.builtinDefault))
  /\ (exists st1 a',
         Extension.onlyTrashed Scenario.store0 "User" = Ok st1
         /\ Extension.events (find st1)
            = [Extension.Executed (Extension.lowerFirst "User") "findMany" a';
               Extension.ResetDone "User"]
         /\ get (get a' "where") (field_key Extension.builtinDefault)
            = VObj [("not", VBool false)]
         /\ Extension.lookup (Extension.store (find st1)) "User"
            = Some (Extension.reset Extension.builtinDefault)).
Proof.
  apply (mutator_holds_for_one_read Scenario.datamodel Scenario.answering
           Scenario.keepSelect Scenario.keepResult Scenario.store0 "User"
           Scenario.whereId1 Extension.builtinDefault VBool);
    try reflexivity.
  intros x. eexists. reflexivity.
Defined.

(** ** One default object for all *)



(** ** Construction, continued *)

Section ModelConfigResolution.
Variable models_ : list (string * Extension.ModelEntry).

Let resolve (modelConfig : list (string * Extension.ConfigRef))
    (modelName : string) :=
  match assoc_get modelName models_ with
  | Some (Extension.Flag true) =>
      assoc_set modelConfig modelName Extension.SharedDefault
  | Some (Extension.Custom config) =>
      assoc_set modelConfig modelName (Extension.Own config)
  | Some (Extension.Flag false) | None => modelConfig
  end.

Let slot (m : string) : option Extension.ConfigRef :=
  match assoc_get m models_ with
  | Some (Extension.Flag true) => Some Extension.SharedDefault
  | Some (Extension.Custom config) => Some (Extension.Own config)
  | Some (Extension.Flag false) | None => None
  end.

Lemma modelConfig_resolved modelNames m :
  forall acc,
    assoc_get m (fold_left resolve modelNames acc)
    = if mem m modelNames
      then match slot m with Some ref => Some ref | None => assoc_get m acc end
      else assoc_get m acc.
Proof.
  induction modelNames as [|x rest IH]; intros acc; [reflexivity|].
  simpl. rewrite IH. unfold mem. simpl. fold (mem m rest).
  destruct (String.eqb_spec m x) as [->|Hne]; simpl.
  - assert (Hx : assoc_get x (resolve acc x)
                 = match slot x with Some ref => Some ref
                                   | None => assoc_get x acc end).
    { unfold resolve, slot.
      destruct (assoc_get x models_) as [[[|]|config]|];
        try reflexivity; apply assoc_get_set_same. }
    rewrite Hx. destruct (mem x rest); [|reflexivity].
    now destruct (slot x).
  - assert (Hx : assoc_get m (resolve acc x) = assoc_get m acc).
    { unfold resolve.
      destruct (assoc_get x models_) as [[[|]|config]|];
        try reflexivity; now apply assoc_get_set_other. }
    now rewrite Hx.
Qed.

Lemma modelConfig_resolved_all m :
  assoc_get m (fold_left resolve (map fst models_) []) = slot m.
Proof.
  rewrite modelConfig_resolved. simpl.
  destruct (mem m (map fst models_)) eqn:Hmem; [now destruct (slot m)|].
  unfold slot. destruct (assoc_get m models_) as [e|] eqn:E; [|reflexivity].
  apply assoc_get_In in E. apply (in_map fst) in E. simpl in E.
  apply mem_In in E. congruence.
Qed.
End ModelConfigResolution.

(** X19. What construction resolves each model to, once the default config
    has passed the check: a model given as [true] reads the default config,
    a model given as an object reads that object, and a model given as
    [false], or not named at all, has no config. *)
Theorem construction_resolves_models (cfg : Extension.Config) (st : Extension.Store) :
  Extension.createSoftDeleteExtension cfg = Ok st ->
  forall m,
    Extension.lookup st m
    = match assoc_get m (Extension.models cfg) with
      | Some (Extension.Flag true) =>
          Some (match Extension.defaultConfig cfg with
                | Some d => d
                | None => Extension.builtinDefault
                end)
      | Some (Extension.Custom config) => Some config
      | Some (Extension.Flag false) | None => None
      end.
Proof.
  unfold Extension.createSoftDeleteExtension.
  destruct (negb (truthy_string _)); [discriminate|].
  destruct (createValue _); [|discriminate].
  intros [= <-] m. unfold Extension.lookup. simpl.
  rewrite (modelConfig_resolved_all (Extension.models cfg) m).
  now destruct (assoc_get m (Extension.models cfg)) as [[[|]|config]|].
Qed.

Lemma construction_resolves_models_witness :
  Extension.lookup Scenario.store0 "Comment" = Some Extension.builtinDefault
  /\ Extension.lookup Scenario.store0 "Tag" = None.
Proof.
  split.
  - exact (construction_resolves_models Scenario.allDefault Scenario.store0
             eq_refl "Comment").
  - exact (construction_resolves_models Scenario.allDefault Scenario.store0
             eq_refl "Tag").
Defined.

(** ** forceDelete, continued *)

(** X20. A [forceDelete] whose [deleteMany] the client rejects leaves
    [forceDelete] set.  The rejection is returned to the caller and nothing
    is reset, so the next plain [deleteMany] on the model is sent to the
    client as a physical [deleteMany], not as an [updateMany]. *)
Theorem rejected_forceDelete_stays_armed
    (datamodel : list Dmmf.Model)
    (client : string -> string -> value -> result value)
    (addDeletedToSelect : Params -> ModelConfig -> Params)
    (modifyReadResult : ModelConfig -> value -> Params -> option value -> value)
    (st : Extension.Store) (m : string) (config : ModelConfig)
    (cv : bool -> value) (a1 a2 where1 : value) (e : Error) :
  Extension.lookup st m = Some config ->
  m <> "" ->
  createValue config = Some cv ->
  getNewWhere config (or_else (get a1 "where") (VObj [])) = Ok where1 ->
  client (Extension.lowerFirst m) "deleteMany" (VObj [("where", where1)])
  = Throw e ->
  let out1 :=
    Extension.forceDelete datamodel client addDeletedToSelect modifyReadResult
      st m a1 in
  Extension.returned out1 = Throw e
  /\ Extension.lookup (Extension.store out1) m
     = Some (Extension.set_forceDelete true config)
  /\ exists where2 rest,
      Extension.events
        (Extension.method datamodel client addDeletedToSelect modifyReadResult
           (Extension.store out1) m "deleteMany" a2)
      = Extension.Executed (Extension.lowerFirst m) "deleteMany"
          (VObj [("where", where2)]) :: rest.
Proof.
  intros Hst Hne Hcv Hnw Hrej out1.
  destruct (lookup_assign st m config (Extension.set_forceDelete true) Hst)
    as (st1 & Hassign & Hst1).
  set (w := or_else (get a1 "where") (VObj [])) in *.
  assert (Hw : or_else (get (VObj [("where", w)]) "where") (VObj [("where", w)])
               = w).
  { change (get (VObj [("where", w)]) "where") with w.
    unfold or_else. subst w. unfold or_else.
    destruct (truthy (get a1 "where")) eqn:E; [now rewrite E|reflexivity]. }
  assert (Hrule1 :
    createDeleteManyParams (Extension.set_forceDelete true config)
      {| model := Some m; operation := "deleteMany";
         args := VObj [("where", w)]; scope := None |}
    = Ok {| params := {| model := Some m; operation := "deleteMany";
                         args := VObj [("where", where1)]; scope := None |};
            ctx := None |}).
  { apply createDeleteManyParams_forced; [exact Hne|reflexivity|].
    rewrite Hw. exact Hnw. }
  pose proof (method_outcome datamodel client addDeletedToSelect
                modifyReadResult st1 m "deleteMany" (VObj [("where", w)])
                _ createDeleteManyParams Hst1 eq_refl) as H1.
  cbv zeta in H1. rewrite Hrule1 in H1. cbn [params operation args] in H1.
  rewrite Hrej in H1. destruct H1 as (Hstore & _ & Hret).
  assert (Hout : Extension.store out1 = st1 /\ Extension.returned out1 = Throw e).
  { subst out1. unfold Extension.forceDelete. fold w. rewrite Hassign. auto. }
  destruct Hout as [Hs1 Hr1]. rewrite Hs1.
  split; [exact Hr1|]. split; [exact Hst1|].
  destruct (getNewWhere_total (Extension.set_forceDelete true config) cv
              (or_else (get a2 "where") a2) Hcv) as [where2 Hnw2].
  pose proof (createDeleteManyParams_forced
                (Extension.set_forceDelete true config) m a2 None where2
                Hne eq_refl Hnw2) as Hrule2.
  pose proof (method_outcome datamodel client addDeletedToSelect
                modifyReadResult st1 m "deleteMany" a2
                _ createDeleteManyParams Hst1 eq_refl) as H2.
  cbv zeta in H2. rewrite Hrule2 in H2. cbn [params operation args] in H2.
  exists where2.
  destruct (client (Extension.lowerFirst m) "deleteMany"
              (VObj [("where", where2)])).
  - destruct H2 as [_ He]. rewrite He. eexists. reflexivity.
  - destruct H2 as (_ & He & _). rewrite He. eexists. reflexivity.
Qed.

Lemma rejected_forceDelete_stays_armed_witness :
  let out1 :=
    Extension.forceDelete Scenario.datamodel Scenario.rejecting
      Scenario.keepSelect Scenario.keepResult Scenario.store0 "User"
      Scenario.whereId1 in
  Extension.returned out1 = Throw (ClientError (VStr "storage failure"))
  /\ Extension.lookup (Extension.store out1) "User"
     = Some (Extension.set_forceDelete true Extension.builtinDefault)
  /\ exists where2 rest,
      Extension.events
        (Extension.method Scenario.datamodel Scenario.rejecting
           Scenario.keepSelect Scenario.keepResult
           (Extension.store out1) "User" "deleteMany" Scenario.whereId1)
      = Extension.Executed (Extension.lowerFirst "User") "deleteMany"
          (VObj [("where", where2)]) :: rest.
Proof.
  apply (rejected_forceDelete_stays_armed Scenario.datamodel Scenario.rejecting
           Scenario.keepSelect Scenario.keepResult Scenario.store0 "User"
           Extension.builtinDefault VBool Scenario.whereId1 Scenario.whereId1
           (VObj [("id", VNum 1); ("deleted", VBool false)])
           (ClientError (VStr "storage failure")));
    try reflexivity.
  discriminate.
Defined.

(** X21. On a model that is not configured the mutators that write a
    member throw: [forceDelete], [withTrashed] and [onlyTrashed] end in a
    [TypeError], call nothing and leave the store alone.
    [withTrashedRelated] checks first, and returns with the store
    unchanged. *)
Theorem mutators_on_unconfigured_model
    (datamodel : list Dmmf.Model)
    (client : string -> string -> value -> result value)
    (addDeletedToSelect : Params -> ModelConfig -> Params)
    (modifyReadResult : ModelConfig -> value -> Params -> option value -> value)
    (st : Extension.Store) (m : string) (a : value) :
  Extension.lookup st m = None ->
  (exists message,
      Extension.forceDelete datamodel client addDeletedToSelect
        modifyReadResult st m a
      = {| Extension.store := st; Extension.events := [];
           Extension.returned := Throw (TypeError message) |}
      /\ Extension.withTrashed st m = Throw (TypeError message)
      /\ Extension.onlyTrashed st m = Throw (TypeError message))
  /\ (nullish a = false -> Extension.withTrashedRelated datamodel st m a = Ok st).
Proof.
  intros Hst.
  assert (Hassign : forall f, Extension.assign st m f = None).
  { intros f. unfold Extension.lookup in Hst. unfold Extension.assign.
    now destruct (assoc_get m (Extension.modelConfig st)) as [[|]|]. }
  split.
  - eexists. unfold Extension.forceDelete, Extension.withTrashed,
      Extension.onlyTrashed. rewrite !Hassign. repeat split.
  - intros Hn. unfold Extension.withTrashedRelated. rewrite Hn. f_equal.
    induction (keys a) as [|key rest IH]; [reflexivity|].
    simpl. now rewrite Hst.
Qed.

Lemma mutators_on_unconfigured_model_witness :
  (exists message,
      Extension.forceDelete Scenario.datamodel Scenario.answering
        Scenario.keepSelect Scenario.keepResult Scenario.store0 "Tag"
        Scenario.whereId1
      = {| Extension.store := Scenario.store0; Extension.events := [];
           Extension.returned := Throw (TypeError message) |}
      /\ Extension.withTrashed Scenario.store0 "Tag" = Throw (TypeError message)
      /\ Extension.onlyTrashed Scenario.store0 "Tag" = Throw (TypeError message))
  /\ (nullish Scenario.whereId1 = false ->
      Extension.withTrashedRelated Scenario.datamodel Scenario.store0 "Tag"
        Scenario.whereId1 = Ok Scenario.store0).
Proof.
  exact (mutators_on_unconfigured_model Scenario.datamodel Scenario.answering
           Scenario.keepSelect Scenario.keepResult Scenario.store0 "Tag"
           Scenario.whereId1 eq_refl).
Defined.

(** ** withTrashedRelated *)

Section TrashedRelated.
Variable datamodel : list Dmmf.Model.
Variable modelName : string.
Variable nestedModels : value.
Variable config : ModelConfig.

Let written (key : string) : value :=
  VBool match get nestedModels key with VBool true => true | _ => false end.

Let step (st : Extension.Store) (key : string) : Extension.Store :=
  match Extension.lookup st modelName with
  | Some config =>
      if andb (truthy (nestModels config))
              (Extension.isIncludeModel datamodel modelName key)
      then
        match nestModels config with
        | VObj props =>
            let v := match get nestedModels key with
                     | VBool true => true
                     | _ => false
                     end in
            match Extension.assign st modelName
                    (Extension.set_nestModels
                       (VObj (assoc_set props key (VBool v)))) with
            | Some st' => st'
            | None => st
            end
        | _ => st
        end
      else st
  | None => st
  end.

(** The config of the model, up to its [nestModels]. *)
Let same_but_nestModels (c : ModelConfig) (props : list (string * value)) :=
  nestModels c = VObj props
  /\ forall v, Extension.set_nestModels v c = Extension.set_nestModels v config.

Lemma withTrashedRelated_loop keys_ :
  forall st c props,
    Extension.lookup st modelName = Some c ->
    same_but_nestModels c props ->
    exists c' props',
      Extension.lookup (fold_left step keys_ st) modelName = Some c'
      /\ same_but_nestModels c' props'
      /\ forall k,
          assoc_get k props'
          = if andb (mem k keys_)
                    (Extension.isIncludeModel datamodel modelName k)
            then Some (written k) else assoc_get k props.
Proof.
  induction keys_ as [|key rest IH]; intros st c props Hst [Hnm Hsame].
  - exists c, props. repeat split; auto.
  - simpl.
    destruct (Extension.isIncludeModel datamodel modelName key) eqn:Hinc.
    + destruct (lookup_assign st modelName c
                  (Extension.set_nestModels
                     (VObj (assoc_set props key (written key)))) Hst)
        as (st1 & Hassign & Hst1).
      assert (Hstep : step st key = st1).
      { unfold step. rewrite Hst, Hnm, Hinc. simpl. fold (written key).
        now rewrite Hassign. }
      rewrite Hstep.
      destruct (IH st1 _ (assoc_set props key (written key)) Hst1)
        as (c' & props' & Hl & Hs & Hget).
      { split; [reflexivity|]. intros v. exact (Hsame v). }
      exists c', props'. split; [exact Hl|]. split; [exact Hs|].
      intros k. rewrite Hget. unfold mem. simpl. fold (mem k rest).
      destruct (andb (mem k rest)
                     (Extension.isIncludeModel datamodel modelName k)) eqn:Hr.
      * apply andb_true_iff in Hr. destruct Hr as [-> ->].
        now rewrite orb_true_r.
      * destruct (String.eqb_spec k key) as [->|Hne]; simpl.
        -- rewrite Hinc. apply assoc_get_set_same.
        -- rewrite Hr. now apply assoc_get_set_other.
    + assert (Hstep : step st key = st).
      { unfold step. rewrite Hst, Hinc, andb_false_r. reflexivity. }
      rewrite Hstep.
      destruct (IH st c props Hst (conj Hnm Hsame))
        as (c' & props' & Hl & Hs & Hget).
      exists c', props'. split; [exact Hl|]. split; [exact Hs|].
      intros k. rewrite Hget. unfold mem. simpl. fold (mem k rest).
      destruct (String.eqb_spec k key) as [->|Hne]; simpl; [|reflexivity].
      rewrite Hinc, !andb_false_r. reflexivity.
Qed.
End TrashedRelated.

(** X22. [withTrashedRelated(nestedModels)] on a configured model whose
    [nestModels] is an object.  A key of [nestedModels] is recorded only when
    the model has a relation field of that type that holds the foreign key
    (its first field of that type has a non-empty [relationToFields]); every
    other key is ignored.  What is recorded is the boolean
    [nestedModels[key] === true].  Entries already in [nestModels] under
    other keys stay, and no other member of the config changes. *)
Theorem withTrashedRelated_records_relations
    (datamodel : list Dmmf.Model) (st : Extension.Store) (modelName : string)
    (nestedModels : value) (config : ModelConfig)
    (props : list (string * value)) :
  Extension.lookup st modelName = Some config ->
  nestModels config = VObj props ->
  nullish nestedModels = false ->
  exists st' props',
    Extension.withTrashedRelated datamodel st modelName nestedModels = Ok st'
    /\ Extension.lookup st' modelName
       = Some (Extension.set_nestModels (VObj props') config)
    /\ forall k,
        assoc_get k props'
        = if andb (mem k (keys nestedModels))
                  (Extension.isIncludeModel datamodel modelName k)
          then Some (VBool match get nestedModels k with
                           | VBool true => true
                           | _ => false
                           end)
          else assoc_get k props.
Proof.
  intros Hst Hnm Hn.
  destruct (withTrashedRelated_loop datamodel modelName nestedModels config
              (keys nestedModels) st config props Hst)
    as (c' & props' & Hl & [Hnm' Hsame] & Hget).
  { split; [exact Hnm|reflexivity]. }
  eexists. exists props'. unfold Extension.withTrashedRelated. rewrite Hn.
  split; [reflexivity|]. split; [|exact Hget].
  etransitivity; [exact Hl|]. f_equal. rewrite <- Hsame.
  destruct c'. simpl in *. now subst.
Qed.

Lemma withTrashedRelated_records_relations_witness :
  exists st' props',
    Extension.withTrashedRelated Scenario.datamodel Scenario.store0 "Comment"
      (VObj [("User", VBool true); ("Tag", VBool true); ("Post", VNum 1)])
    = Ok st'
    /\ Extension.lookup st' "Comment"
       = Some (Extension.set_nestModels (VObj props') Extension.builtinDefault)
    /\ forall k,
        assoc_get k props'
        = if andb (mem k (keys (VObj [("User", VBool true);
                                      ("Tag", VBool true);
                                      ("Post", VNum 1)])))
                  (Extension.isIncludeModel Scenario.datamodel "Comment" k)
          then Some (VBool match get (VObj [("User", VBool true);
                                            ("Tag", VBool true);
                                            ("Post", VNum 1)]) k with
                           | VBool true => true
                           | _ => false
                           end)
          else assoc_get k [].
Proof.
  exact (withTrashedRelated_records_relations Scenario.datamodel
           Scenario.store0 "Comment"
           (VObj [("User", VBool true); ("Tag", VBool true); ("Post", VNum 1)])
           Extension.builtinDefault [] eq_refl eq_refl eq_refl).
Defined.

(** ** Include injection, continued *)

(** X23. With one key configured in [nestModels], a [findMany] that
    includes a relation whose name contains the key (case-insensitively) is
    executed with that relation's [where] extended by
    [field = createValue(false)], the field being the one of the model that
    is queried; when the key's value is truthy the relation's [where] is the
    caller's (or [{}]). *)
Theorem include_filters_matching_relation
    (config : ModelConfig) (params : Params) (cv : bool -> value)
    (key : string) (keep : value)
    (props : list (string * value)) (m : string) (entry : value) :
  nestModels config = VObj [(key, keep)] ->
  createValue config = Some cv ->
  get (args params) "include" = VObj props ->
  assoc_get m props = Some entry ->
  includes (toLowerCase m) (toLowerCase key) = true ->
  exists r,
    createFindManyParams config params = Ok r
    /\ get (get (get (args (Types.params r)) "include") m) "where"
       = (if truthy keep then or_else (get entry "where") (VObj [])
          else VObj (assoc_set (own_props (or_else (get entry "where") (VObj [])))
                       (field_key config) (cv false))).
Proof.
  intros Hnest Hcv Hinc Hm Hmatch.
  destruct (getWhere_total config params cv Hcv) as [where_ Hwhere].
  destruct (getInclude_single_key config params cv key keep Hnest Hcv)
    as (r & Hr & Hget).
  assert (Hin : mem m (keys (or_else (get (args params) "include") (VObj [])))
                = true).
  { rewrite Hinc. unfold or_else, keys. simpl. apply mem_In.
    apply assoc_get_In in Hm. now apply (in_map fst) in Hm. }
  pose proof (Hget m) as H1. rewrite Hin, Hmatch in H1. simpl in H1.
  unfold createFindManyParams. rewrite Hwhere, Hr. cbn [Types.bind].
  unfold read_args. rewrite isEmptyObject_spec by reflexivity.
  destruct r as [|p r']; [discriminate H1|]. cbn [Types.bind].
  eexists. split; [reflexivity|]. cbn [Types.params args with_operation_args].
  rewrite get_set_same. rewrite (get_obj (p :: r')), H1.
  rewrite Hinc, (get_obj props), Hm. reflexivity.
Qed.

Lemma include_filters_matching_relation_witness :
  exists r,
    createFindManyParams
      (Extension.set_nestModels (VObj [("User", VBool false)])
         Extension.builtinDefault)
      (Scenario.rootParams "Comment" "findMany" Scenario.includeUserPost) = Ok r
    /\ get (get (get (args (Types.params r)) "include") "user") "where"
       = VObj [("deleted", VBool false)].
Proof.
  exact (include_filters_matching_relation
           (Extension.set_nestModels (VObj [("User", VBool false)])
              Extension.builtinDefault)
           (Scenario.rootParams "Comment" "findMany" Scenario.includeUserPost)
           VBool "User" (VBool false) _ "user" (VBool true)
           eq_refl eq_refl eq_refl eq_refl eq_refl).
Defined.

(** ** A config without [nestModels] *)

(** X24. An override object that has no [nestModels] member makes the three
    [find] rewrites throw: [isEmptyObject] reads the keys of [undefined].
    The root method then calls nothing, returns the [TypeError] and leaves
    the store as it was.  ([count], [aggregate] and [groupBy], which do not
    look at the includes, are not concerned.) *)
Theorem find_throws_without_nestModels
    (datamodel : list Dmmf.Model)
    (client : string -> string -> value -> result value)
    (addDeletedToSelect : Params -> ModelConfig -> Params)
    (modifyReadResult : ModelConfig -> value -> Params -> option value -> value)
    (st : Extension.Store) (m op : string) (a : value)
    (config : ModelConfig) (cv : bool -> value) :
  Extension.lookup st m = Some config ->
  createValue config = Some cv ->
  nullish (nestModels config) = true ->
  In op ["findFirst"; "findFirstOrThrow"; "findMany"] ->
  exists message,
    Extension.method datamodel client addDeletedToSelect modifyReadResult
      st m op a
    = {| Extension.store := st; Extension.events := [];
         Extension.returned := Throw (TypeError message) |}.
Proof.
  intros Hst Hcv Hn Hin.
  set (initial := {| model := Some m; operation := op; args := a;
                     scope := None |}).
  assert (Hshape : forall kind,
    Types.bind (getWhere config initial) (fun where_ =>
    Types.bind (getInclude config initial) (fun include =>
    Types.bind (read_args (args initial) where_ include) (fun args =>
    just (with_operation_args initial kind args))))
    = Throw (TypeError "Cannot convert undefined or null to object")).
  { intros kind. destruct (getWhere_total config initial cv Hcv) as [w ->].
    unfold getInclude, isEmptyObject. now rewrite Hn. }
  exists "Cannot convert undefined or null to object".
  unfold Extension.method, Extension.rootOperation,
    Extension.createParamsByModel.
  cbn [model operation args opt_to_string]. rewrite Hst. fold initial.
  simpl in Hin. destruct Hin as [<-|[<-|[<-|[]]]]; cbn [assoc_get Extension.rules];
    simpl String.eqb; cbv iota.
  - unfold createFindFirstParams. now rewrite (Hshape "findFirst").
  - unfold createFindFirstOrThrowParams. now rewrite (Hshape "findFirstOrThrow").
  - unfold createFindManyParams. now rewrite (Hshape "findMany").
Qed.

Lemma find_throws_without_nestModels_witness :
  exists message,
    Extension.method Scenario.datamodel Scenario.answering Scenario.keepSelect
      Scenario.keepResult
      {| Extension.default := Extension.builtinDefault;
         Extension.modelConfig :=
           [("Post",
             Extension.Own
               {| field := Some "deletedAt";
                  createValue := Some (fun _ => VDate 0);
                  allowToOneUpdates := None;
                  allowCompoundUniqueIndexWhere := None;
                  queryOption := None; nestModels := VUndefined;
                  forceDelete := None |})] |}
      "Post" "findMany" (VObj [])
    = {| Extension.store :=
           {| Extension.default := Extension.builtinDefault;
              Extension.modelConfig :=
                [("Post",
                  Extension.Own
                    {| field := Some "deletedAt";
                       createValue := Some (fun _ => VDate 0);
                       allowToOneUpdates := None;
                       allowCompoundUniqueIndexWhere := None;
                       queryOption := None; nestModels := VUndefined;
                       forceDelete := None |})] |};
         Extension.events := [];
         Extension.returned := Throw (TypeError message) |}.
Proof.
  eapply (find_throws_without_nestModels Scenario.datamodel Scenario.answering
            Scenario.keepSelect Scenario.keepResult _ "Post" "findMany" (VObj [])
            _ (fun _ => VDate 0)); try reflexivity.
  simpl. auto.
Defined.

(** ** Nested deletes *)

(** X25. A nested [delete] given as an object, on a model whose config
    leaves [forceDelete] unset, becomes an [update] that marks the row as
    deleted.  The [where] that is transformed is [args.where] when there is
    one and the args themselves otherwise, so that the form
    [delete: { id: 1 }] is filtered as well. *)
Theorem nested_delete_is_soft_update
    (config : ModelConfig) (params : Params) (s : Scope)
    (cv : bool -> value) (m : string) :
  model params = Some m -> m <> "" ->
  scope params = Some s ->
  String.eqb (typeof (args params)) "boolean" = false ->
  flag (forceDelete config) = false ->
  createValue config = Some cv ->
  exists where_,
    getNewWhere config (or_else (get (args params) "where") (args params))
    = Ok where_
    /\ createDeleteParams config params
       = Ok {| params :=
                 with_operation_args params "update"
                   (VObj [("where", where_);
                          ("data", VObj [(field_key config, cv true)])]);
               ctx := None |}.
Proof.
  intros Hm Hne Hs Hty Hfd Hcv.
  destruct (getNewWhere_total config cv
              (or_else (get (args params) "where") (args params)) Hcv)
    as [where_ Hnw].
  exists where_. split; [exact Hnw|].
  unfold createDeleteParams, call_createValue.
  assert (Hts : truthy_string (model params) = true)
    by (apply truthy_string_spec; eauto).
  rewrite Hts, Hs, Hty. simpl. now rewrite Hnw, Hcv, Hfd.
Qed.

Lemma nested_delete_is_soft_update_witness :
  exists where_,
    getNewWhere Extension.builtinDefault
      (or_else (get (VObj [("id", VNum 1)]) "where") (VObj [("id", VNum 1)]))
    = Ok where_
    /\ createDeleteParams Extension.builtinDefault
         (Scenario.nestedParams "Post" "delete" (VObj [("id", VNum 1)])
            "posts" true None)
       = Ok {| params :=
                 with_operation_args
                   (Scenario.nestedParams "Post" "delete" (VObj [("id", VNum 1)])
                      "posts" true None)
                   "update"
                   (VObj [("where", where_);
                          ("data", VObj [("deleted", VBool true)])]);
               ctx := None |}.
Proof.
  eapply (nested_delete_is_soft_update Extension.builtinDefault
            (Scenario.nestedParams "Post" "delete" (VObj [("id", VNum 1)])
               "posts" true None)
            _ VBool "Post"); try reflexivity; discriminate.
Defined.
